(** * Andela societies backend: points ledger and review workflow

    A shallow embedding of the point-accounting core of the Flask
    application: the [Society] ledger of [api/models.py], the valuation
    helper [parse_log_activity_fields] of [api/utils/helpers.py], the
    schema validator [LogEditActivitySchema.validate_logged_activity] of
    [api/utils/marshmallow_schemas.py] and the request handlers of
    [api/endpoints/logged_activities.py] and
    [api/endpoints/redemption_requests.py].

    Tables are finite maps from primary key ([uuid]) to row; the session
    state is the tables together with the objects a handler has attached to
    the session without flushing them.  A handler is a function from the
    session state to the new session state and an outcome: either the
    response it returns or the Python exception it raises.
    Integer columns are unbounded signed integers ([Z]), dates are day
    ordinals ([Z]), and [datetime.date.today()] is an input.

    Left out: the decorators ([token_required], [roles_required]), the
    serialisation of response bodies, the e-mail notice, and the columns no
    handler of the core reads. *)

From Stdlib Require Import ZArith Ascii String List Lia.
From stdpp Require Import gmap strings list fin_maps.

Local Set Warnings "-register-all".
Local Open Scope string_scope.
Local Open Scope Z_scope.

(** ** JSON payloads as Python sees them

    [request.get_json(silent=True)] yields [None] when the request carries no
    (valid) JSON body, and the decoded value otherwise.  [JNull] is Python's
    [None]; an object is its list of key/value pairs. *)

Inductive json : Type :=
  | JNull
  | JBool (b : bool)
  | JNum (z : Z)
  | JStr (s : string)
  | JList (l : list json)
  | JObj (o : list (string * json)).

(** [LibraryError n] is an exception of class [n] raised inside
    SQLAlchemy. *)
Inductive exn : Type :=
  | TypeError
  | AttributeError
  | KeyError
  | LibraryError (name : string).

(** What [response_builder(dict(...), code)] is given: the message and the
    status code.  [MsgStatusChanged st] stands for
    ["RedemptionRequest status changed to {}".format(st)]. *)
Inductive message : Type :=
  | Msg (s : string)
  | ValidationErrors (errors : list (string * string))
  | MsgStatusChanged (st : json)
  | NoMessage.

Record Response : Type := response_builder { body : message; status_code : Z }.

Inductive outcome : Type :=
  | Returned (r : Response)
  | Raised (e : exn).

Module Py.

(** Truth value of an object ([if payload:], [not x]). *)
Definition truthy (j : json) : bool :=
  match j with
  | JNull => false
  | JBool b => b
  | JNum z => negb (z =? 0)
  | JStr s => negb (String.eqb s "")
  | JList l => match l with [] => false | _ => true end
  | JObj o => match o with [] => false | _ => true end
  end.

(** [len(x)]: a [TypeError] for [None], booleans and numbers. *)
Definition len (j : json) : exn + Z :=
  match j with
  | JStr s => inr (Z.of_nat (String.length s))
  | JList l => inr (Z.of_nat (List.length l))
  | JObj o => inr (Z.of_nat (List.length o))
  | JNull | JBool _ | JNum _ => inl TypeError
  end.

Definition is_str (k : string) (j : json) : bool :=
  match j with JStr s => String.eqb s k | _ => false end.

Fixpoint assoc (k : string) (o : list (string * json)) : option json :=
  match o with
  | [] => None
  | (k', v) :: o' => if String.eqb k' k then Some v else assoc k o'
  end.

(** [k in x] for a string [k]: key test on a dict, membership on a list,
    substring test on a string, [TypeError] on anything else. *)
Definition contains (k : string) (j : json) : exn + bool :=
  match j with
  | JObj o => inr (match assoc k o with Some _ => true | None => false end)
  | JList l => inr (existsb (is_str k) l)
  | JStr s => inr (match String.index 0 k s with Some _ => true | None => false end)
  | JNull | JBool _ | JNum _ => inl TypeError
  end.

(** [x.get(k)] (default [None]): only dicts have the method. *)
Definition get (k : string) (j : json) : exn + json :=
  match j with
  | JObj o => inr (match assoc k o with Some v => v | None => JNull end)
  | _ => inl AttributeError
  end.

(** [x[k]] for a string key: [KeyError] on a dict without the key,
    [TypeError] on every other kind of object. *)
Definition getitem (k : string) (j : json) : exn + json :=
  match j with
  | JObj o => match assoc k o with Some v => inr v | None => inl KeyError end
  | _ => inl TypeError
  end.

(** Truth value of an optional string, integer or date taken with
    [dict.get]. *)
Definition truthy_str (o : option string) : bool :=
  match o with Some s => negb (String.eqb s "") | None => false end.

Definition truthy_int (o : option Z) : bool :=
  match o with Some n => negb (n =? 0) | None => false end.

Definition truthy_date (o : option Z) : bool :=
  match o with Some _ => true | None => false end.

End Py.

(** ** The data model ([api/models.py])

    Column names are prefixed by the table they belong to, since [value],
    [status] and [name] occur in several models. *)

Record Society : Type := mkSociety {
  soc_name : string;
  _total_points : Z;
  _used_points : Z
}.

Record User : Type := mkUser {
  user_uuid : string;
  user_society_id : option string
}.

Record ActivityType : Type := mkActivityType {
  at_name : string;
  at_value : Z;
  supports_multiple_participants : bool
}.

(** [activity_date] is a nullable column. *)
Record Activity : Type := mkActivity {
  act_activity_type_id : string;
  act_activity_date : option Z
}.

Record LoggedActivity : Type := mkLoggedActivity {
  la_name : option string;
  la_description : option string;
  la_photo : option string;
  la_value : Z;
  la_status : string;
  la_activity_date : Z;
  la_redeemed : bool;
  la_no_of_participants : option Z;
  la_activity_type_id : string;
  la_user_id : string;
  la_society_id : string;
  la_activity_id : option string
}.

(** [rr_status] holds a JSON value: the handler stores the payload's
    [status] as it comes. *)
Record RedemptionRequest : Type := mkRedemptionRequest {
  rr_name : string;
  rr_user_id : string;
  rr_society_id : string;
  rr_value : Z;
  rr_status : json
}.

(** What [LoggedActivity(name=..., ...)] is given by
    [LoggedActivitiesAPI.post].  Built with [society=] and [user=], the
    object enters the session at once, through the relationships; it has no
    primary key, status or redeemed flag before a flush. *)
Record NewLoggedActivity : Type := mkNewLoggedActivity {
  new_name : option string;
  new_description : option string;
  new_photo : option string;
  new_value : Z;
  new_activity_date : Z;
  new_activity_type_id : string;
  new_user_id : string;
  new_society_id : string;
  new_activity_id : option string
}.

(** The session: every table the handlers read or write, and the objects a
    handler has put in the session without flushing them ([pending]).

    [query_get_other] is a parameter.  SQLAlchemy is not part of the source:
    how [Query.get] reads an identifier that is neither a string nor a list
    of one string (a number, a dict, [None], a list of another shape) is
    decided by the library and by the database, so it is taken as given: the
    primary key that is looked up, [None] when no row can match, or the
    exception that is raised. *)
Record DB : Type := mkDB {
  societies : gmap string Society;
  users : gmap string User;
  activity_types : gmap string ActivityType;
  activities : gmap string Activity;
  logged_activities : gmap string LoggedActivity;
  redemptions : gmap string RedemptionRequest;
  pending : list NewLoggedActivity;
  query_get_other : json -> exn + option string
}.

(** *** The ledger embedded in [Society] *)

Definition total_points (s : Society) : Z := _total_points s.

Definition used_points (s : Society) : Z := _used_points s.

(** [@total_points.setter]: [self._total_points += point.value]. *)
Definition set_total_points (s : Society) (point : LoggedActivity) : Society :=
  {| soc_name := soc_name s;
     _total_points := _total_points s + la_value point;
     _used_points := _used_points s |}.

(** [@used_points.setter]: [self._used_points += redemption_request.value]. *)
Definition set_used_points (s : Society) (redemption_request : RedemptionRequest) : Society :=
  {| soc_name := soc_name s;
     _total_points := _total_points s;
     _used_points := _used_points s + rr_value redemption_request |}.

Definition remaining_points (s : Society) : Z := total_points s - used_points s.

(** *** Row updates *)

Definition set_la_status (st : string) (la : LoggedActivity) : LoggedActivity :=
  {| la_name := la_name la; la_description := la_description la;
     la_photo := la_photo la; la_value := la_value la; la_status := st;
     la_activity_date := la_activity_date la; la_redeemed := la_redeemed la;
     la_no_of_participants := la_no_of_participants la;
     la_activity_type_id := la_activity_type_id la;
     la_user_id := la_user_id la; la_society_id := la_society_id la;
     la_activity_id := la_activity_id la |}.

Definition set_rr_status (st : json) (rr : RedemptionRequest) : RedemptionRequest :=
  {| rr_name := rr_name rr; rr_user_id := rr_user_id rr;
     rr_society_id := rr_society_id rr; rr_value := rr_value rr;
     rr_status := st |}.

Definition with_societies (m : gmap string Society) (db : DB) : DB :=
  {| societies := m; users := users db; activity_types := activity_types db;
     activities := activities db; logged_activities := logged_activities db;
     redemptions := redemptions db; pending := pending db;
     query_get_other := query_get_other db |}.

Definition with_logged_activities (m : gmap string LoggedActivity) (db : DB) : DB :=
  {| societies := societies db; users := users db;
     activity_types := activity_types db; activities := activities db;
     logged_activities := m; redemptions := redemptions db;
     pending := pending db; query_get_other := query_get_other db |}.

Definition with_redemptions (m : gmap string RedemptionRequest) (db : DB) : DB :=
  {| societies := societies db; users := users db;
     activity_types := activity_types db; activities := activities db;
     logged_activities := logged_activities db; redemptions := m;
     pending := pending db; query_get_other := query_get_other db |}.

Definition with_pending (l : list NewLoggedActivity) (db : DB) : DB :=
  {| societies := societies db; users := users db;
     activity_types := activity_types db; activities := activities db;
     logged_activities := logged_activities db; redemptions := redemptions db;
     pending := l; query_get_other := query_get_other db |}.

(** The request context: [datetime.date.today()] and [g.current_user]. *)
Record Env : Type := mkEnv { today : Z; current_user : User }.

Definition respond (m : string) (code : Z) : outcome :=
  Returned (response_builder (Msg m) code).

(** ** [api/endpoints/logged_activities.py] *)

(** The primary key that [Query.get(x)] looks up for an element [x] of the
    request's list: a string is the key, a list of one value stands for the
    tuple of the primary key's columns, and everything else is left to
    [query_get_other]. *)
Definition ident_key (db : DB) (x : json) : exn + option string :=
  match x with
  | JStr k => inr (Some k)
  | JList [JStr k] => inr (Some k)
  | _ => query_get_other db x
  end.

(** [LoggedActivity.query.get(x)]. *)
Definition query_get_logged_activity (db : DB) (x : json)
    : exn + option (string * LoggedActivity) :=
  match ident_key db x with
  | inl e => inl e
  | inr None => inr None
  | inr (Some k) =>
      inr (match logged_activities db !! k with
           | Some la => Some (k, la)
           | None => None
           end)
  end.

(** *** [SecretaryReviewLoggedActivityAPI.put] *)

Definition SecretaryReview_put (payload : json) (logged_activity_id : string)
    (db : DB) : DB * outcome :=
  match Py.contains "status" payload with
  | inl e => (db, Raised e)
  | inr false => (db, respond "status is required." 400)
  | inr true =>
      match logged_activities db !! logged_activity_id with
      | None => (db, respond "Logged activity not found" 404)
      | Some logged_activity =>
          match Py.get "status" payload with
          | inl e => (db, Raised e)
          | inr (JStr st) =>
              if String.eqb st "pending" || String.eqb st "rejected" then
                (with_logged_activities
                   (<[logged_activity_id := set_la_status st logged_activity]>
                      (logged_activities db)) db,
                 respond "successfully changed status" 200)
              else (db, respond "Invalid status value." 400)
          | inr _ => (db, respond "Invalid status value." 400)
          end
      end
  end.

(** *** [LoggedActivityApprovalAPI.put] *)

(** The guard of the collecting loop: [logged_activities.redeemed or
    logged_activities.status in ['rejected', 'in review', 'approved']]. *)
Definition not_approvable (la : LoggedActivity) : bool :=
  la_redeemed la
  || String.eqb (la_status la) "rejected"
  || String.eqb (la_status la) "in review"
  || String.eqb (la_status la) "approved".

Definition has_key (k : string) (u : list (string * LoggedActivity)) : bool :=
  existsb (fun e => String.eqb (fst e) k) u.

(** [unique_activities_ids.add(obj)]: a Python set of model objects, which
    hash by identity; one object per primary key lives in a session, so the
    set is a list of rows without a repeated key. *)
Definition set_add (e : string * LoggedActivity) (u : list (string * LoggedActivity))
    : list (string * LoggedActivity) :=
  if has_key (fst e) u then u else u ++ [e].

(** The collecting loop; it stops at the first [Query.get] that raises. *)
Fixpoint collect_pending (db : DB) (ids : list json)
    (u : list (string * LoggedActivity))
    : exn + list (string * LoggedActivity) :=
  match ids with
  | [] => inr u
  | x :: ids' =>
      match query_get_logged_activity db x with
      | inl e => inl e
      | inr None => collect_pending db ids' u
      | inr (Some (k, la)) =>
          if not_approvable la then collect_pending db ids' u
          else collect_pending db ids' (set_add (k, la) u)
      end
  end.

(** One turn of the approving loop: the status is written first, then the
    society's setter is called with the item.  A row is written at its own
    turn only, so the row collected is still the row stored. *)
Definition approve_one (e : string * LoggedActivity) (db : DB) : DB * option exn :=
  let la := set_la_status "approved" (snd e) in
  let db1 := with_logged_activities (<[fst e := la]> (logged_activities db)) db in
  match societies db1 !! la_society_id la with
  | None => (db1, Some AttributeError)
  | Some society =>
      (with_societies
         (<[la_society_id la := set_total_points society la]> (societies db1)) db1,
       None)
  end.

(** [for unique_activities_id in list(unique_activities_ids)]; see
    [approve_all_Permutation] for the order of the visit. *)
Fixpoint approve_all (u : list (string * LoggedActivity)) (db : DB) : DB * option exn :=
  match u with
  | [] => (db, None)
  | e :: u' =>
      match approve_one e db with
      | (db', None) => approve_all u' db'
      | (db', Some x) => (db', Some x)
      end
  end.

Definition Approval_put (payload : json) (db : DB) : DB * outcome :=
  if Py.truthy payload then
    match Py.get "loggedActivitiesIds" payload with
    | inl e => (db, Raised e)
    | inr JNull => (db, respond "loggedActivitiesIds is required" 400)
    | inr logged_activities_ids =>
        match Py.len logged_activities_ids with
        | inl e => (db, Raised e)
        | inr n =>
            if 20 <? n then
              (db, respond
                 "Sorry, you can not approve more than 20 logged_activities at a go"
                 403)
            else
              match logged_activities_ids with
              | JList (x :: ids) =>
                  match collect_pending db (x :: ids) [] with
                  | inl e => (db, Raised e)
                  | inr [] =>
                      (db, respond
                         "Invalid logged activities or no pending logged activities in request"
                         400)
                  | inr unique_activities_ids =>
                      match approve_all unique_activities_ids db with
                      | (db', None) => (db', respond "Activity edited successfully" 200)
                      | (db', Some e) => (db', Raised e)
                      end
                  end
              | _ =>
                  (db, respond
                     "A List/Array with at least one logged activity id is needed!"
                     400)
              end
        end
    end
  else (db, respond "Data for creation must be provided." 400).

(** *** [LoggedActivityRejectionAPI.put] *)

Definition Rejection_put (logged_activity_id : string) (db : DB) : DB * outcome :=
  match logged_activities db !! logged_activity_id with
  | None => (db, respond "Logged activity not found" 404)
  | Some logged_activity =>
      if String.eqb (la_status logged_activity) "pending" then
        (with_logged_activities
           (<[logged_activity_id := set_la_status "rejected" logged_activity]>
              (logged_activities db)) db,
         respond "Activity successfully rejected" 200)
      else
        (db, respond
           "This logged activity is either in-review, approved or already rejected"
           403)
  end.

(** ** [api/endpoints/redemption_requests.py] *)

(** *** [PointRedemptionRequestNumeration.put] *)

Definition is_approved (status : json) : bool := Py.is_str "approved" status.

Definition Numeration_put (payload : json) (redeem_id : string) (db : DB)
    : DB * outcome :=
  if negb (Py.truthy payload) then
    (db, respond "Data for editing must be provided" 400)
  else if String.eqb redeem_id "" then
    (db, respond "RedemptionRequest id must be provided." 400)
  else
    match Py.getitem "status" payload with
    | inl KeyError =>
        (* the [except] clause hands the [KeyError] object itself to
           [response_builder], and [jsonify] cannot serialise it *)
        (db, Raised TypeError)
    | inl e => (db, Raised e)
    | inr status =>
        match redemptions db !! redeem_id with
        | None => (db, respond "Resource does not exist." 404)
        | Some redemp_request =>
            if is_approved status then
              match users db !! rr_user_id redemp_request with
              | None => (db, Raised AttributeError)
              | Some user =>
                  match user_society_id user ≫= (fun k => (fun s => (k, s)) <$> societies db !! k) with
                  | None => (db, Raised AttributeError)
                  | Some (k, society) =>
                      (with_redemptions
                         (<[redeem_id := set_rr_status status redemp_request]>
                            (redemptions db))
                         (with_societies
                            (<[k := set_used_points society redemp_request]>
                               (societies db)) db),
                       Returned (response_builder (MsgStatusChanged status) 200))
                  end
              end
            else
              (with_redemptions
                 (<[redeem_id := set_rr_status status redemp_request]>
                    (redemptions db)) db,
               Returned (response_builder (MsgStatusChanged status) 200))
        end
    end.

(** [get_redemption_request] of [api/utils/helpers.py], for a caller who is
    not a society president: the lookup with the pending-only guard. *)
Definition get_redemption_request (redeem_id : string) (db : DB)
    : Response + RedemptionRequest :=
  match redemptions db !! redeem_id with
  | None => inl (response_builder (Msg "RedemptionRequest does not exist.") 404)
  | Some redemp_request =>
      if negb (Py.is_str "pending" (rr_status redemp_request)) then
        inl (response_builder (Msg "RedemptionRequest already approved or rejected") 403)
      else inr redemp_request
  end.

(** ** Submission data ([api/utils/marshmallow_schemas.py])

    The dictionary that [LogEditActivitySchema] hands to its schema-level
    validator and that [load] returns: each key is present or absent.
    Marshmallow's own field deserialisation (string, date and integer
    formats) happens before and is not modelled. *)

Record LogFields : Type := mkLogFields {
  f_name : option string;
  f_description : option string;
  f_photo : option string;
  f_activity_id : option string;
  f_activity_type_id : option string;
  f_date : option Z;
  f_no_of_participants : option Z
}.

(** The uuids of [ActivityType.query.filter_by(
    supports_multiple_participants=True).all()]. *)
Definition multi_participant_activities (db : DB) : gset string :=
  dom (filter (fun kv => supports_multiple_participants (snd kv) = true)
         (activity_types db)).

Definition in_multi_participant_activities (db : DB) (k : option string) : bool :=
  match k with
  | Some k => bool_decide (k ∈ multi_participant_activities db)
  | None => false
  end.

(** [validate_logged_activity]: the [ValidationError] it raises, as the pair
    of field name and message, or [None] when the data passes. *)
Definition validate_logged_activity (db : DB) (data : LogFields)
    : option (string * string) :=
  if (Py.truthy_str (f_activity_type_id data) && Py.truthy_str (f_activity_id data))
     || (negb (Py.truthy_str (f_activity_type_id data))
         && negb (Py.truthy_str (f_activity_id data)))
  then Some ("error", "Please send either an activityTypeId or an activityId only")
  else if Py.truthy_str (f_activity_type_id data)
          && negb (Py.truthy_date (f_date data) && Py.truthy_str (f_description data))
  then Some ("error", "Please send a date and description")
  else if in_multi_participant_activities db (f_activity_type_id data)
          && negb (Py.truthy_int (f_no_of_participants data))
  then Some ("no_of_participants",
             "Please send all required fields for this activity i.e. a date, number of participants and a description")
  else None.

(** [log_edit_activity_schema.load(payload)]: the data and the errors. *)
Definition schema_load (db : DB) (payload : LogFields)
    : LogFields * list (string * string) :=
  (payload,
   match validate_logged_activity db payload with
   | Some e => [e]
   | None => []
   end).

(** ** Valuation ([api/utils/helpers.py]) *)

Record ParsedResult : Type := mkParsedResult {
  pr_activity : option (string * Activity);
  pr_activity_type : string * ActivityType;
  pr_activity_date : Z;
  pr_activity_value : Z
}.

(** The second half of [parse_log_activity_fields], common to both
    branches: the staleness check and the value. *)
Definition parse_tail (today : Z) (result : LogFields)
    (activity : option (string * Activity)) (activity_type : string * ActivityType)
    (activity_date : Z) : outcome + ParsedResult :=
  let time_difference := today - activity_date in
  if 30 <? time_difference then
    inl (respond "You're late. That activity happened more than 30 days ago" 422)
  else if negb (supports_multiple_participants (snd activity_type)) then
    inr (mkParsedResult activity activity_type activity_date
           (at_value (snd activity_type)))
  else
    match f_no_of_participants result with
    | None => inl (Raised KeyError)
    | Some n =>
        inr (mkParsedResult activity activity_type activity_date
               (at_value (snd activity_type) * n))
    end.

(** The first half of [parse_log_activity_fields]: the [if]/[else] that
    resolves the activity, its type and its date, or returns early.  For an
    activity without a date, [datetime.date.today() - activity_date] raises
    [TypeError]. *)
Definition resolve_activity (today : Z) (db : DB) (result : LogFields)
    : outcome + (option (string * Activity) * (string * ActivityType) * Z) :=
  if Py.truthy_str (f_activity_id result) then
    match f_activity_id result ≫= (fun k => (fun a => (k, a)) <$> activities db !! k) with
    | None => inl (respond "Invalid activity id" 422)
    | Some (k, activity) =>
        match activity_types db !! act_activity_type_id activity with
        | None => inl (Raised AttributeError)
        | Some activity_type =>
            if supports_multiple_participants activity_type
               && negb (Py.truthy_int (f_no_of_participants result)
                        && Py.truthy_str (f_description result))
            then
              inl (respond
                     "Please send the number of interviewees and their names in the description"
                     400)
            else
              match act_activity_date activity with
              | None => inl (Raised TypeError)
              | Some activity_date =>
                  inr (Some (k, activity),
                       (act_activity_type_id activity, activity_type),
                       activity_date)
              end
        end
    end
  else
    match f_date result with
    | None => inl (Raised KeyError)
    | Some activity_date =>
        if today <? activity_date then
          inl (respond "Invalid activity date" 422)
        else
          match f_activity_type_id result with
          | None => inl (Raised KeyError)
          | Some k =>
              match activity_types db !! k with
              | None => inl (respond "Invalid activity type id" 422)
              | Some activity_type => inr (None, (k, activity_type), activity_date)
              end
          end
    end.

Definition parse_log_activity_fields (today : Z) (db : DB) (result : LogFields)
    : outcome + ParsedResult :=
  match resolve_activity today db result with
  | inl o => inl o
  | inr (activity, activity_type, activity_date) =>
      parse_tail today result activity activity_type activity_date
  end.

(** ** Submitting, editing and deleting a logged activity *)

(** [g.current_user.society], with its primary key. *)
Definition current_society (env : Env) (db : DB) : option (string * Society) :=
  user_society_id (current_user env) ≫=
    (fun k => (fun s => (k, s)) <$> societies db !! k).

(** [Base.save()] of a new row whose [uuid] default produced [k]: when the
    commit fails the session is rolled back and [save] returns [False],
    which no caller looks at. *)
Definition save_new (k : string) (la : LoggedActivity) (db : DB) : DB :=
  match logged_activities db !! k with
  | Some _ => db
  | None => with_logged_activities (<[k := la]> (logged_activities db)) db
  end.

(** The object built at the start of [LoggedActivitiesAPI.post]. *)
Definition new_logged_activity (env : Env) (society_id : string)
    (result : LogFields) (parsed_result : ParsedResult) : NewLoggedActivity :=
  {| new_name := f_name result;
     new_description := f_description result;
     new_photo := f_photo result;
     new_value := pr_activity_value parsed_result;
     new_activity_date := pr_activity_date parsed_result;
     new_activity_type_id := fst (pr_activity_type parsed_result);
     new_user_id := user_uuid (current_user env);
     new_society_id := society_id;
     new_activity_id := fst <$> pr_activity parsed_result |}.

(** *** [LoggedActivitiesAPI.post]; [new_uuid] is what [generate_uuid()]
    returns for the new row, [None] is a payload that is absent or empty.

    The object is built before the test on the type's name, so the two
    branches that leave without [save()] leave it pending in the session.
    On the other branches [save()] commits it: it is then a row, written
    with the column defaults for its status and its redeemed flag.  What a
    later request finds of an object left pending (written or dropped when
    the request ends) depends on the application's configuration; no
    handler reads [pending]. *)
Definition LoggedActivities_post (env : Env) (new_uuid : string)
    (payload : option LogFields) (db : DB) : DB * outcome :=
  match payload with
  | None => (db, respond "Data for creation must be provided." 400)
  | Some payload =>
      match schema_load db payload with
      | (_, (e :: _) as errors) =>
          (db, Returned (response_builder (ValidationErrors errors) 400))
      | (result, []) =>
          match current_society env db with
          | None => (db, respond "You are not a member of any society yet" 422)
          | Some (society_id, _) =>
              match parse_log_activity_fields (today env) db result with
              | inl o => (db, o)
              | inr parsed_result =>
                  let logged_activity (n : option Z) :=
                    {| la_name := f_name result;
                       la_description := f_description result;
                       la_photo := f_photo result;
                       la_value := pr_activity_value parsed_result;
                       la_status := "in review";
                       la_activity_date := pr_activity_date parsed_result;
                       la_redeemed := false;
                       la_no_of_participants := n;
                       la_activity_type_id := fst (pr_activity_type parsed_result);
                       la_user_id := user_uuid (current_user env);
                       la_society_id := society_id;
                       la_activity_id := fst <$> pr_activity parsed_result |} in
                  if String.eqb (at_name (snd (pr_activity_type parsed_result)))
                       "Bootcamp Interviews"
                  then
                    match f_no_of_participants result with
                    | None =>
                        (with_pending
                           (new_logged_activity env society_id result parsed_result
                              :: pending db) db,
                         Raised KeyError)
                    | Some n =>
                        if n =? 0 then
                          (with_pending
                             (new_logged_activity env society_id result parsed_result
                                :: pending db) db,
                           respond
                             "Data for creation must be provided. (no_of_participants)"
                             400)
                        else
                          (save_new new_uuid (logged_activity (Some n)) db,
                           respond "Activity logged successfully" 201)
                    end
                  else
                    (save_new new_uuid (logged_activity None) db,
                     respond "Activity logged successfully" 201)
              end
          end
      end
  end.

(** [LoggedActivity.query.filter_by(uuid=..., user_id=g.current_user.uuid)
    .one_or_none()]. *)
Definition own_logged_activity (env : Env) (logged_activity_id : string) (db : DB)
    : option LoggedActivity :=
  match logged_activities db !! logged_activity_id with
  | Some la =>
      if String.eqb (la_user_id la) (user_uuid (current_user env))
      then Some la else None
  | None => None
  end.

(** The two defaults an edit takes from the stored row. *)
Definition edit_defaults (logged_activity : LoggedActivity) (result : LogFields)
    : LogFields :=
  {| f_name := f_name result;
     f_description := f_description result;
     f_photo := f_photo result;
     f_activity_id := f_activity_id result;
     f_activity_type_id :=
       if Py.truthy_str (f_activity_type_id result) then f_activity_type_id result
       else Some (la_activity_type_id logged_activity);
     f_date :=
       if Py.truthy_date (f_date result) then f_date result
       else Some (la_activity_date logged_activity);
     f_no_of_participants := f_no_of_participants result |}.

Definition update_fields (result : LogFields) (parsed_result : ParsedResult)
    (la : LoggedActivity) : LoggedActivity :=
  {| la_name := f_name result;
     la_description := f_description result;
     la_photo := f_photo result;
     la_value := pr_activity_value parsed_result;
     la_status := la_status la;
     la_activity_date := pr_activity_date parsed_result;
     la_redeemed := la_redeemed la;
     la_no_of_participants := la_no_of_participants la;
     la_activity_type_id := fst (pr_activity_type parsed_result);
     la_user_id := la_user_id la;
     la_society_id := la_society_id la;
     la_activity_id := fst <$> pr_activity parsed_result |}.

(** *** [LoggedActivityAPI.put] *)
Definition LoggedActivity_put (env : Env) (payload : option LogFields)
    (logged_activity_id : string) (db : DB) : DB * outcome :=
  match payload with
  | None => (db, respond "Data for creation must be provided." 400)
  | Some payload =>
      match schema_load db payload with
      | (_, (e :: _) as errors) =>
          (db, Returned (response_builder (ValidationErrors errors) 400))
      | (result, []) =>
          match own_logged_activity env logged_activity_id db with
          | None => (db, respond "Logged activity does not exist" 404)
          | Some logged_activity =>
              if negb (String.eqb (la_status logged_activity) "in review") then
                (db, respond "Not allowed. Activity is already in pre-approval." 401)
              else
                let result := edit_defaults logged_activity result in
                match parse_log_activity_fields (today env) db result with
                | inl o => (db, o)
                | inr parsed_result =>
                    (with_logged_activities
                       (<[logged_activity_id :=
                            update_fields result parsed_result logged_activity]>
                          (logged_activities db)) db,
                     respond "Activity edited successfully" 200)
                end
          end
      end
  end.

(** *** [LoggedActivityAPI.delete] *)
Definition LoggedActivity_delete (env : Env) (logged_activity_id : string)
    (db : DB) : DB * outcome :=
  match own_logged_activity env logged_activity_id db with
  | None => (db, respond "Logged Activity does not exist!" 404)
  | Some logged_activity =>
      if negb (String.eqb (la_status logged_activity) "in review") then
        (db, respond "You are not allowed to perform this operation" 403)
      else
        (with_logged_activities (delete logged_activity_id (logged_activities db)) db,
         Returned (response_builder NoMessage 204))
  end.

(** ** One request against the session *)

Inductive Op : Type :=
  | OpSubmit (env : Env) (new_uuid : string) (payload : option LogFields)
  | OpEdit (env : Env) (payload : option LogFields) (logged_activity_id : string)
  | OpDelete (env : Env) (logged_activity_id : string)
  | OpSecretaryReview (payload : json) (logged_activity_id : string)
  | OpApprove (payload : json)
  | OpReject (logged_activity_id : string)
  | OpNumerate (payload : json) (redeem_id : string).

Definition step (op : Op) (db : DB) : DB * outcome :=
  match op with
  | OpSubmit env new_uuid payload => LoggedActivities_post env new_uuid payload db
  | OpEdit env payload k => LoggedActivity_put env payload k db
  | OpDelete env k => LoggedActivity_delete env k db
  | OpSecretaryReview payload k => SecretaryReview_put payload k db
  | OpApprove payload => Approval_put payload db
  | OpReject k => Rejection_put k db
  | OpNumerate payload k => Numeration_put payload k db
  end.

(** ** Vocabulary of the statements *)

(** Points credited to society [s] by the rows of [u]. *)
Fixpoint credit (u : list (string * LoggedActivity)) (s : string) : Z :=
  match u with
  | [] => 0
  | e :: u' =>
      (if String.eqb (la_society_id (snd e)) s then la_value (snd e) else 0)
      + credit u' s
  end.

Definition add_total (n : Z) (s : Society) : Society :=
  {| soc_name := soc_name s;
     _total_points := _total_points s + n;
     _used_points := _used_points s |}.

(** The foreign key [logged_activities.society_id] (not nullable). *)
Definition society_fk (db : DB) : Prop :=
  map_Forall (fun _ la => is_Some (societies db !! la_society_id la))
    (logged_activities db).

(** Every stored value is non-negative. *)
Definition nonneg_values (db : DB) : Prop :=
  map_Forall (fun _ la => 0 <= la_value la) (logged_activities db)
  /\ map_Forall (fun _ rr => 0 <= rr_value rr) (redemptions db).

(** [Query.get] answers for the element, with a row or with [None]. *)
Definition resolves (db : DB) (x : json) : bool :=
  match ident_key db x with
  | inr _ => true
  | inl _ => false
  end.

(** The element names the row of primary key [k]. *)
Definition names (db : DB) (ids : list json) (k : string) : Prop :=
  exists x, x ∈ ids /\ ident_key db x = inr (Some k).

(** The guard of the approval, in the words of the specification: not
    redeemed, and neither rejected, in review nor approved. *)
Definition eligible (la : LoggedActivity) : Prop :=
  la_redeemed la = false
  /\ la_status la <> "rejected"
  /\ la_status la <> "in review"
  /\ la_status la <> "approved".

(** The rows of a set all come from the table. *)
Definition from_table (db : DB) (u : list (string * LoggedActivity)) : Prop :=
  forall k la, (k, la) ∈ u -> logged_activities db !! k = Some la.

Definition bad_input : outcome :=
  respond "Invalid logged activities or no pending logged activities in request" 400.

(** The activity type a submission resolves to, when it does. *)
Definition resolved_activity_type (db : DB) (result : LogFields) : option ActivityType :=
  if Py.truthy_str (f_activity_id result) then
    match f_activity_id result ≫= (fun k : string => activities db !! k) with
    | Some a => activity_types db !! act_activity_type_id a
    | None => None
    end
  else f_activity_type_id result ≫= (fun k : string => activity_types db !! k).

Definition stale : outcome :=
  respond "You're late. That activity happened more than 30 days ago" 422.

Definition either_or_error : Response :=
  response_builder
    (ValidationErrors
       [("error", "Please send either an activityTypeId or an activityId only")])
    400.

(** The reading of the ledger that the code does not follow, stated so that
    it can be refuted: no request ever lowers a society's [total_points] or
    [used_points]. *)
Definition ledger_accumulate_only : Prop :=
  forall op db s soc,
    societies db !! s = Some soc ->
    exists soc',
      societies (step op db).1 !! s = Some soc'
      /\ total_points soc <= total_points soc'
      /\ used_points soc <= used_points soc'.

(** ** A sample session *)

Module Sample.

Definition phoenix : Society := mkSociety "Phoenix" 100 30.
Definition invictus : Society := mkSociety "Invictus" 0 0.

Definition president : User := mkUser "u1" (Some "s1").
Definition fellow : User := mkUser "u2" (Some "s1").
Definition outsider : User := mkUser "u3" None.

Definition interviews : ActivityType := mkActivityType "Bootcamp Interviews" 10 true.
Definition blog : ActivityType := mkActivityType "Blog" 5 false.

Definition hackathon : Activity := mkActivity "t2" (Some 1000).

Definition logged (value : Z) (status : string) (society : string) : LoggedActivity :=
  {| la_name := Some "talk"; la_description := Some "a talk"; la_photo := None;
     la_value := value; la_status := status; la_activity_date := 1000;
     la_redeemed := false; la_no_of_participants := None;
     la_activity_type_id := "t2"; la_user_id := "u2"; la_society_id := society;
     la_activity_id := None |}.

(** One library and database for the sample: a scalar that is not a string
    matches no row, and an identifier of any other shape (an empty list, a
    list of two values, an object) is refused. *)
Definition other_identifier (x : json) : exn + option string :=
  match x with
  | JNull | JBool _ | JNum _ => inr None
  | _ => inl (LibraryError "InvalidRequestError")
  end.

Definition db : DB :=
  {| societies := <["s1" := phoenix]> (<["s2" := invictus]> ∅);
     users := <["u1" := president]> (<["u2" := fellow]> (<["u3" := outsider]> ∅));
     activity_types := <["t1" := interviews]> (<["t2" := blog]> ∅);
     activities := <["a1" := hackathon]> ∅;
     logged_activities :=
       <["l1" := logged 10 "pending" "s1"]>
         (<["l2" := logged 5 "approved" "s1"]>
            (<["l3" := logged 7 "in review" "s1"]>
               (<["l4" := logged 7 "pending" "s2"]> ∅)));
     redemptions :=
       <["r1" := mkRedemptionRequest "party" "u1" "s1" 40 (JStr "pending")]> ∅;
     pending := [];
     query_get_other := other_identifier |}.

Definition env : Env := mkEnv 1030 fellow.

Definition approve : json := JObj [("status", JStr "approved")].
Definition reject : json := JObj [("status", JStr "rejected")].

Definition no_fields : LogFields := mkLogFields None None None None None None None.

(** Three interviews, 30 days ago. *)
Definition interview_log : LogFields :=
  {| f_name := None; f_description := Some "Ada, Grace and Alan";
     f_photo := None; f_activity_id := None; f_activity_type_id := Some "t1";
     f_date := Some 1000; f_no_of_participants := Some 3 |}.

(** The same with a negative number of participants, which the schema
    accepts: the field is an integer and only has to be truthy. *)
Definition interview_log_negative : LogFields :=
  {| f_name := None; f_description := Some "Ada, Grace and Alan";
     f_photo := None; f_activity_id := None; f_activity_type_id := Some "t1";
     f_date := Some 1000; f_no_of_participants := Some (-3) |}.

(** The same without the number of participants. *)
Definition interview_log_short : LogFields :=
  {| f_name := None; f_description := Some "Ada, Grace and Alan";
     f_photo := None; f_activity_id := None; f_activity_type_id := Some "t1";
     f_date := Some 1000; f_no_of_participants := None |}.

(** A blog post for the hackathon, which took place 30 days ago. *)
Definition hackathon_log : LogFields :=
  {| f_name := Some "write-up"; f_description := Some "a talk"; f_photo := None;
     f_activity_id := Some "a1"; f_activity_type_id := None;
     f_date := None; f_no_of_participants := None |}.

(** Two interviews, 20 days ago. *)
Definition interview_edit : LogFields :=
  {| f_name := None; f_description := Some "Ada and Grace";
     f_photo := None; f_activity_id := None; f_activity_type_id := Some "t1";
     f_date := Some 1010; f_no_of_participants := Some 2 |}.

Definition both_ids : LogFields :=
  {| f_name := None; f_description := Some "a talk"; f_photo := None;
     f_activity_id := Some "a1"; f_activity_type_id := Some "t2";
     f_date := Some 1000; f_no_of_participants := None |}.

Definition ids : list json := [JStr "l1"; JStr "l1"; JStr "l2"; JStr "l4"; JStr "zz"].
Definition bulk : json := JObj [("loggedActivitiesIds", JList ids)].

(** A request that names one item by its key and another by a list of one
    key. *)
Definition ids_nested : list json := [JStr "l1"; JList [JStr "l4"]; JStr "l2"].

(** The session after the fellow has logged [interview_log_negative] as
    item [l9] and the secretary has passed it on. *)
Definition db_negative : DB :=
  (step (OpSecretaryReview (JObj [("status", JStr "pending")]) "l9")
     (step (OpSubmit env "l9" (Some interview_log_negative)) db).1).1.

(** A type named Bootcamp Interviews that does not support multiple
    participants, and two submissions against it: one with no number of
    participants, one with the number 0. *)
Definition db_bootcamp : DB :=
  {| societies := societies db; users := users db;
     activity_types :=
       <["t3" := mkActivityType "Bootcamp Interviews" 20 false]> (activity_types db);
     activities := <["a2" := mkActivity "t2" None]> (activities db);
     logged_activities := logged_activities db;
     redemptions := redemptions db;
     pending := pending db; query_get_other := query_get_other db |}.

Definition bootcamp_log : LogFields :=
  {| f_name := None; f_description := Some "one candidate"; f_photo := None;
     f_activity_id := None; f_activity_type_id := Some "t3";
     f_date := Some 1020; f_no_of_participants := None |}.



End Sample.

(** ** More of the code

    *** [camel_case] ([api/models.py])

    Column names are ASCII, and on ASCII [str.title] upper-cases a letter
    that does not follow a letter and lower-cases one that does; every other
    character is kept.  [None] stands for the [IndexError] of
    [title_str[0]] on an empty string. *)

Module Str.

Definition is_upper (c : ascii) : bool :=
  ((65 <=? nat_of_ascii c) && (nat_of_ascii c <=? 90))%nat.

Definition is_lower (c : ascii) : bool :=
  ((97 <=? nat_of_ascii c) && (nat_of_ascii c <=? 122))%nat.

Definition is_cased (c : ascii) : bool := is_upper c || is_lower c.

Definition upper (c : ascii) : ascii :=
  if is_lower c then ascii_of_nat (nat_of_ascii c - 32) else c.

Definition lower (c : ascii) : ascii :=
  if is_upper c then ascii_of_nat (nat_of_ascii c + 32) else c.

(** [str.title()], with the flag [previous_is_cased] of its loop. *)
Fixpoint title_from (previous_is_cased : bool) (s : string) : string :=
  match s with
  | EmptyString => EmptyString
  | String c s' =>
      String (if previous_is_cased then lower c else upper c)
        (title_from (is_cased c) s')
  end.

Definition title (s : string) : string := title_from false s.

(** [s.replace("_", "")]. *)
Fixpoint remove_underscores (s : string) : string :=
  match s with
  | EmptyString => EmptyString
  | String c s' =>
      if Ascii.eqb c "_"%char then remove_underscores s'
      else String c (remove_underscores s')
  end.

Fixpoint count_underscores (s : string) : nat :=
  match s with
  | EmptyString => 0%nat
  | String c s' =>
      ((if Ascii.eqb c "_"%char then 1 else 0) + count_underscores s')%nat
  end.

Fixpoint occurs (c : ascii) (s : string) : bool :=
  match s with
  | EmptyString => false
  | String c' s' => Ascii.eqb c' c || occurs c s'
  end.

End Str.

Definition camel_case (snake_str : string) : option string :=
  let title_str := Str.remove_underscores (Str.title snake_str) in
  match title_str with
  | EmptyString => None
  | String c rest => Some (String (Str.lower c) rest)
  end.

(** *** [UserLoggedActivitiesAPI.get] ([api/endpoints/logged_activities.py]) *)

(** [user.logged_activities.all()]; the order (by creation time) is not
    modelled. *)
Definition user_logged_activities (user_id : string) (db : DB)
    : gmap string LoggedActivity :=
  filter (fun kv => la_user_id (snd kv) = user_id) (logged_activities db).

(** The rows of the query
    [filter(LoggedActivity.user_id == user_id, LoggedActivity.status == 'approved')]. *)
Definition approved_of (user_id : string) (db : DB) : gmap string LoggedActivity :=
  filter (fun kv => la_user_id (snd kv) = user_id /\ la_status (snd kv) = "approved")
    (logged_activities db).

Definition sum_values (m : gmap string LoggedActivity) : Z :=
  map_fold (fun _ la acc => la_value la + acc) 0 m.

(** [db.session.query(func.sum(LoggedActivity.value)).filter(...).scalar()]:
    SQL's [SUM] over no row is [NULL]. *)
Definition points_earned_scalar (user_id : string) (db : DB) : option Z :=
  if decide (approved_of user_id db = ∅) then None
  else Some (sum_values (approved_of user_id db)).

(** [points_earned if points_earned else 0]. *)
Definition pointsEarned (user_id : string) (db : DB) : Z :=
  match points_earned_scalar user_id db with
  | Some n => if n =? 0 then 0 else n
  | None => 0
  end.

(** The body of the 200 answer. *)
Record UserActivities : Type := mkUserActivities {
  ua_data : gmap string LoggedActivity;
  ua_society : option string;
  ua_societyId : option string;
  ua_activitiesLogged : nat;
  ua_pointsEarned : Z;
  ua_message : string
}.

Definition UserLoggedActivities_get (user_id : string) (db : DB)
    : Response + UserActivities :=
  match users db !! user_id with
  | None => inl (response_builder (Msg "User not found") 404)
  | Some user =>
      let user_logged_activities := user_logged_activities user_id db in
      let society :=
        user_society_id user ≫=
          (fun k : string => (fun s => (k, s)) <$> societies db !! k) in
      inr {| ua_data := user_logged_activities;
             ua_society := (fun ks => soc_name (snd ks)) <$> society;
             ua_societyId := fst <$> society;
             ua_activitiesLogged := size user_logged_activities;
             ua_pointsEarned := pointsEarned user_id db;
             ua_message :=
               if decide (user_logged_activities = ∅)
               then "There are no logged activities for that user."
               else "Logged activities fetched successfully" |}
  end.

(** *** [PointRedemptionAPI.delete]
    ([api/endpoints/redemption_requests.py]) *)
Definition Redemption_delete (redeem_id : string) (db : DB) : DB * outcome :=
  if String.eqb redeem_id "" then
    (db, respond "RedemptionRequest id must be provided." 400)
  else
    match redemptions db !! redeem_id with
    | None => (db, respond "RedemptionRequest does not exist." 404)
    | Some _ =>
        (with_redemptions (delete redeem_id (redemptions db)) db,
         respond "RedemptionRequest deleted successfully." 200)
    end.

(** *** [LoggedActivityInfoAPI.put] ([api/endpoints/logged_activities.py])

    What [send_email.delay] is given: the society named in the subject, the
    activity's name and the comment quoted in the message, and the user
    whose address is the recipient.  The sender is read from the
    application's configuration, which is taken as present. *)
Record Email : Type := mkEmail {
  mail_society : string;
  mail_activity : option string;
  mail_context : json;
  mail_recipient : string
}.

Definition Info_put (payload : json) (logged_activity_id : string) (db : DB)
    : outcome * option Email :=
  if negb (Py.truthy payload) then
    (respond "Data for editing must be provided" 400, None)
  else if String.eqb logged_activity_id "" then
    (respond "LoggedActivity id must be provided." 400, None)
  else
    match logged_activities db !! logged_activity_id with
    | None => (respond "Logged activity not found" 404, None)
    | Some logged_activity =>
        match Py.get "comment" payload with
        | inl e => (Raised e, None)
        | inr comment =>
            if Py.truthy comment then
              match users db !! la_user_id logged_activity with
              | None => (Raised AttributeError, None)
              | Some user =>
                  match user_society_id user ≫= (fun k : string => societies db !! k) with
                  | None => (Raised AttributeError, None)
                  | Some society =>
                      (respond "Extra information has been successfully requested" 200,
                       Some {| mail_society := soc_name society;
                               mail_activity := la_name logged_activity;
                               mail_context := comment;
                               mail_recipient := la_user_id logged_activity |})
                  end
              end
            else
              (respond "Context for extra informaton must be provided." 400, None)
        end
    end.

(** *** Vocabulary *)


(** The columns of a logged activity that no review step may touch. *)
Definition same_claim (la la' : LoggedActivity) : Prop :=
  la_value la' = la_value la /\ la_user_id la' = la_user_id la
  /\ la_society_id la' = la_society_id la
  /\ la_activity_date la' = la_activity_date la
  /\ la_activity_type_id la' = la_activity_type_id la.

(** The foreign key [activities.activity_type_id] (not nullable). *)
Definition activity_fk (db : DB) : Prop :=
  map_Forall (fun _ a => is_Some (activity_types db !! act_activity_type_id a))
    (activities db).


Definition ids_payload (ids : list json) : json :=
  JObj [("loggedActivitiesIds", JList ids)].

Definition status_payload (st : string) : json := JObj [("status", JStr st)].


(** What a row adds to the points earned by [user_id]. *)
Definition earns (user_id : string) (la : LoggedActivity) : Z :=
  if String.eqb (la_user_id la) user_id && String.eqb (la_status la) "approved"
  then la_value la else 0.

(** The two requests that move an item into or out of [approved]. *)
Definition is_review_step (op : Op) : bool :=
  match op with
  | OpApprove _ | OpSecretaryReview _ _ => true
  | _ => false
  end.

(** The rows of a set are rows of the table, up to their status. *)
Definition from_table_upto_status (db : DB) (u : list (string * LoggedActivity)) : Prop :=
  forall k la, (k, la) ∈ u ->
    exists st, logged_activities db !! k = Some (set_la_status st la).

(** * Proofs *)

Section Collect.

Context (db : DB).

Lemma has_key_true k (u : list (string * LoggedActivity)) :
  has_key k u = true <-> k ∈ u.*1.
Proof.
  unfold has_key. rewrite existsb_exists, list_elem_of_fmap. split.
  - intros [e [Hin He]]. apply String.eqb_eq in He.
    exists e. split; [done | by apply list_elem_of_In].
  - intros [e [-> Hin]]. exists e. split; [by apply list_elem_of_In |].
    apply String.eqb_refl.
Qed.

Lemma has_key_false k (u : list (string * LoggedActivity)) :
  has_key k u = false <-> k ∉ u.*1.
Proof.
  rewrite <- has_key_true. destruct (has_key k u); split; congruence.
Qed.

Lemma set_add_NoDup e u : NoDup u.*1 -> NoDup (set_add e u).*1.
Proof.
  intros Hnd. unfold set_add. destruct (has_key e.1 u) eqn:Hk; [done |].
  rewrite fmap_app. apply NoDup_app. split; [done |]. split.
  - intros k Hk1 Hk2. apply list_elem_of_singleton in Hk2. subst k.
    by apply has_key_false in Hk.
  - apply NoDup_singleton.
Qed.

Lemma set_add_elem k la u e :
  from_table db u -> logged_activities db !! e.1 = Some e.2 ->
  (k, la) ∈ set_add e u <-> (k, la) ∈ u \/ (k, la) = e.
Proof.
  intros Hu He. unfold set_add. destruct (has_key e.1 u) eqn:Hk.
  - split; [by left |]. intros [H | ->]; [done |].
    apply has_key_true, list_elem_of_fmap in Hk as [[k' la'] [Hk' Hin]].
    simpl in Hk'. destruct e as [k0 la0]. simpl in *. subst k'.
    apply Hu in Hin as Hl. rewrite He in Hl. by simplify_eq.
  - rewrite elem_of_app, list_elem_of_singleton. tauto.
Qed.

(** What [Query.get] returns, in terms of the key it looks up. *)
Lemma query_get_inv x o :
  query_get_logged_activity db x = inr o ->
  forall k la,
    ident_key db x = inr (Some k) /\ logged_activities db !! k = Some la
    <-> o = Some (k, la).
Proof.
  unfold query_get_logged_activity.
  destruct (ident_key db x) as [e | [k0 |]]; [discriminate | |];
    intros [= <-] k la.
  - destruct (logged_activities db !! k0) as [la0 |] eqn:Hl; split.
    + intros [[= <-] Hl']. rewrite Hl in Hl'. by injection Hl' as <-.
    + by intros [= <- <-].
    + intros [[= <-] Hl']. by rewrite Hl in Hl'.
    + discriminate.
  - split; [by intros [? _] | discriminate].
Qed.

Lemma query_get_resolves x o :
  query_get_logged_activity db x = inr o -> resolves db x = true.
Proof.
  unfold query_get_logged_activity, resolves.
  by destruct (ident_key db x) as [e | [k0 |]].
Qed.

Lemma resolves_query_get x :
  resolves db x = true -> exists o, query_get_logged_activity db x = inr o.
Proof.
  unfold query_get_logged_activity, resolves.
  destruct (ident_key db x) as [e | [k0 |]]; [discriminate | eauto | eauto].
Qed.

(** The loop ends without an exception exactly when every [Query.get]
    answers. *)
Lemma collect_pending_total ids : forall u,
  forallb (resolves db) ids = true <-> exists r, collect_pending db ids u = inr r.
Proof.
  induction ids as [| x ids IH]; intros u; simpl.
  - split; eauto.
  - rewrite andb_true_iff. split.
    + intros [Hx Hids]. apply resolves_query_get in Hx as [[[k la] |] ->].
      * destruct (not_approvable la); by apply IH.
      * by apply IH.
    + intros [r Hr].
      destruct (query_get_logged_activity db x) as [e | o] eqn:Hq; [discriminate |].
      split; [by apply query_get_resolves in Hq |].
      destruct o as [[k la] |]; [revert Hr; destruct (not_approvable la); intros Hr |];
        eapply IH; eauto.
Qed.

Lemma collect_pending_spec ids : forall u r,
  NoDup u.*1 -> from_table db u ->
  collect_pending db ids u = inr r ->
  NoDup r.*1
  /\ from_table db r
  /\ forall k la,
       (k, la) ∈ r <->
       (k, la) ∈ u
       \/ (names db ids k /\ logged_activities db !! k = Some la
           /\ not_approvable la = false).
Proof.
  induction ids as [| x ids IH]; intros u r Hnd Hu Hc; simpl in Hc.
  - injection Hc as <-. split; [done |]. split; [done |]. intros k la.
    split; [by left |].
    intros [H | [(y & Hy & _) _]]; [done | by apply elem_of_nil in Hy].
  - destruct (query_get_logged_activity db x) as [e | o] eqn:Hq; [discriminate |].
    pose proof (query_get_inv x o Hq) as Hinv.
    assert (Hskip :
      (forall k la, o = Some (k, la) -> not_approvable la = true) ->
      collect_pending db ids u = inr r ->
      NoDup r.*1 /\ from_table db r
      /\ forall k la,
           (k, la) ∈ r <->
           (k, la) ∈ u
           \/ (names db (x :: ids) k /\ logged_activities db !! k = Some la
               /\ not_approvable la = false)).
    { intros Hx Hc'. destruct (IH u r Hnd Hu Hc') as (H1 & H2 & H3).
      split; [done |]. split; [done |]. intros k la. rewrite H3.
      split; (intros [H | ((y & Hy & Hky) & Hl & Hn)]; [by left |]).
      - right. split; [| done]. exists y. split; [by right | done].
      - apply elem_of_cons in Hy as [-> | Hy].
        + assert (o = Some (k, la)) as Ho by (by apply Hinv).
          rewrite (Hx k la Ho) in Hn. discriminate.
        + right. split; [| done]. by exists y. }
    destruct o as [[k0 la0] |]; [| apply Hskip; [discriminate | done]].
    destruct (not_approvable la0) eqn:Hna.
    { apply Hskip; [| done]. by intros k la [= <- <-]. }
    destruct (proj2 (Hinv k0 la0) eq_refl) as [Hk0 Hl0].
    assert (Hu' : from_table db (set_add (k0, la0) u)).
    { intros k la Hin. apply set_add_elem in Hin; [| done | done].
      destruct Hin as [Hin | [= -> ->]]; [by apply Hu | done]. }
    destruct (IH _ r (set_add_NoDup (k0, la0) u Hnd) Hu' Hc) as (H1 & H2 & H3).
    split; [done |]. split; [done |]. intros k la. rewrite H3.
    rewrite set_add_elem; [| done | done]. split.
    + intros [[H | [= -> ->]] | ((y & Hy & Hky) & Hl & Hn)].
      * by left.
      * right. split; [| done]. exists x. split; [by left | done].
      * right. split; [| done]. exists y. split; [by right | done].
    + intros [H | ((y & Hy & Hky) & Hl & Hn)]; [by left; left |].
      apply elem_of_cons in Hy as [-> | Hy].
      * left. right. assert (Some (k0, la0) = Some (k, la)) as Ho by (by apply Hinv).
        by injection Ho as -> ->.
      * right. split; [| done]. by exists y.
Qed.

End Collect.

Section Approve.

Lemma add_total_set_total_points n soc la :
  add_total n (set_total_points soc (set_la_status "approved" la))
  = add_total (la_value la + n) soc.
Proof. unfold add_total, set_total_points. simpl. f_equal. lia. Qed.

Lemma add_total_0 soc : add_total 0 soc = soc.
Proof. destruct soc. unfold add_total. simpl. f_equal. lia. Qed.

(** A turn of the loop on a row whose society exists. *)
Lemma approve_one_ok e db soc :
  societies db !! la_society_id e.2 = Some soc ->
  approve_one e db =
    (with_societies
       (<[la_society_id e.2 :=
            set_total_points soc (set_la_status "approved" e.2)]> (societies db))
       (with_logged_activities
          (<[e.1 := set_la_status "approved" e.2]> (logged_activities db)) db),
     None).
Proof. intros H. unfold approve_one. simpl. by rewrite H. Qed.

(** The loop on rows whose societies all exist: it ends without an
    exception, each society has gained the values of its rows, each row of
    the set is approved and no other row has changed. *)
Lemma approve_all_spec u : forall db,
  (forall e, e ∈ u -> is_Some (societies db !! la_society_id e.2)) ->
  exists db',
    approve_all u db = (db', None)
    /\ (forall s, societies db' !! s = add_total (credit u s) <$> societies db !! s)
    /\ (forall k, k ∉ u.*1 -> logged_activities db' !! k = logged_activities db !! k)
    /\ (NoDup u.*1 -> forall k la, (k, la) ∈ u ->
          logged_activities db' !! k = Some (set_la_status "approved" la))
    /\ users db' = users db /\ activity_types db' = activity_types db
    /\ activities db' = activities db /\ redemptions db' = redemptions db
    /\ pending db' = pending db /\ query_get_other db' = query_get_other db.
Proof.
  induction u as [| e u IH]; intros db Hfk.
  - exists db. simpl. split; [done |]. split.
    { intros s. destruct (societies db !! s); simpl; [| done].
      by rewrite add_total_0. }
    split; [done |]. split; [| done].
    intros _ k la H. by apply elem_of_nil in H.
  - destruct (Hfk e) as [soc Hsoc]; [by left |].
    simpl. rewrite (approve_one_ok _ _ _ Hsoc).
    set (db1 := with_societies _ _).
    destruct (IH db1)
      as (db' & Hrun & Hs & Hother & Hin & Hu & Ht & Ha & Hr & Hp & Hq).
    { intros e' He'. destruct (Hfk e') as [soc' Hsoc']; [by right |].
      subst db1. simpl.
      destruct (decide (la_society_id e.2 = la_society_id e'.2)) as [Heq | Hne].
      - rewrite <- Heq, lookup_insert_eq. eauto.
      - rewrite lookup_insert_ne; eauto. }
    exists db'. split; [done |]. split; [| split; [| split]].
    + intros s. rewrite Hs. subst db1. simpl.
      destruct (String.eqb_spec (la_society_id e.2) s) as [<- | Hne].
      * rewrite lookup_insert_eq, Hsoc. simpl.
        by rewrite add_total_set_total_points.
      * rewrite lookup_insert_ne by done.
        by destruct (societies db !! s).
    + intros k Hk. apply not_elem_of_cons in Hk as [Hne Hk]. rewrite (Hother k Hk). subst db1. simpl.
      by rewrite lookup_insert_ne.
    + intros Hnd k la Hel. apply NoDup_cons in Hnd as [Hfresh Hnd].
      apply elem_of_cons in Hel as [<- | Hel].
      * simpl in Hfresh. rewrite (Hother _ Hfresh). subst db1. simpl.
        by rewrite lookup_insert_eq.
      * by apply Hin.
    + by subst db1.
Qed.

(** Whatever the rows, and even when the loop stops on an exception, a
    society is never removed, [_used_points] is untouched and
    [_total_points] has moved by a sum of credited values. *)
Lemma approve_all_societies u : forall db db' x,
  approve_all u db = (db', x) ->
  redemptions db' = redemptions db
  /\ forall s soc, societies db !! s = Some soc ->
       exists u', u' ⊆ u /\ societies db' !! s = Some (add_total (credit u' s) soc).
Proof.
  induction u as [| e u IH]; intros db db' x Hrun; simpl in Hrun.
  - injection Hrun as <- <-. split; [done |]. intros s soc Hs. exists [].
    split; [done |]. by rewrite add_total_0.
  - unfold approve_one in Hrun. simpl in Hrun.
    destruct (societies db !! la_society_id e.2) as [soc0 |] eqn:Hsoc.
    + apply IH in Hrun as [Hr Hrun]. split; [done |].
      intros s soc Hs. simpl in Hrun.
      destruct (String.eqb_spec (la_society_id e.2) s) as [Heq | Hne].
      * subst s. destruct (Hrun (la_society_id e.2) _ (lookup_insert_eq _ _ _))
          as (u' & Hsub & Hl).
        exists (e :: u'). split; [by apply list_subseteq_skip |]. rewrite Hl. f_equal.
        simpl. rewrite String.eqb_refl. rewrite add_total_set_total_points.
        congruence.
      * destruct (Hrun s soc) as (u' & Hsub & Hl).
        { by rewrite lookup_insert_ne. }
        exists u'. split; [by apply list_subseteq_cons | done].
    + injection Hrun as <- <-. split; [done |]. intros s soc Hs. exists [].
      split; [apply list_subseteq_nil |]. simpl. by rewrite add_total_0.
Qed.

Lemma credit_Permutation u u' s : u ≡ₚ u' -> credit u s = credit u' s.
Proof.
  induction 1 as [| e u u' _ IH | e e' u | u u' u'' _ IH1 _ IH2]; simpl;
    [done | by rewrite IH | lia | congruence].
Qed.

Lemma DB_eq (a b : DB) :
  societies a = societies b -> users a = users b ->
  activity_types a = activity_types b -> activities a = activities b ->
  logged_activities a = logged_activities b -> redemptions a = redemptions b ->
  pending a = pending b -> query_get_other a = query_get_other b ->
  a = b.
Proof. destruct a, b. simpl. by intros -> -> -> -> -> -> -> ->. Qed.

(** Python visits a set in an order of its own; when the societies exist,
    the order makes no difference to the session the loop leaves. *)
Lemma approve_all_Permutation u u' db :
  u ≡ₚ u' -> NoDup u.*1 ->
  (forall e, e ∈ u -> is_Some (societies db !! la_society_id e.2)) ->
  approve_all u' db = approve_all u db.
Proof.
  intros Hp Hnd Hfk.
  assert (Hnd' : NoDup u'.*1) by (by rewrite <- Hp).
  destruct (approve_all_spec u db Hfk)
    as (d & -> & Hs & Ho & Hi & Hu & Ht & Ha & Hr & Hpe & Hq).
  destruct (approve_all_spec u' db)
    as (d' & -> & Hs' & Ho' & Hi' & Hu' & Ht' & Ha' & Hr' & Hpe' & Hq').
  { intros e He. apply Hfk. by rewrite Hp. }
  f_equal. apply DB_eq; try congruence.
  - apply map_eq. intros s. by rewrite Hs, Hs', (credit_Permutation _ _ s Hp).
  - apply map_eq. intros k.
    destruct (decide (k ∈ u.*1)) as [Hk | Hk].
    + apply list_elem_of_fmap in Hk as [[k' la] [Hk' Hin]]. simpl in Hk'. subst k'.
      rewrite (Hi Hnd _ _ Hin). apply (Hi' Hnd'). by rewrite <- Hp.
    + rewrite (Ho _ Hk). apply Ho'. by rewrite <- Hp.
Qed.

End Approve.

Section BulkApproval.


Lemma get_list_is_object payload l :
  Py.get "loggedActivitiesIds" payload = inr (JList l) ->
  Py.truthy payload = true.
Proof.
  destruct payload as [| | | | | o]; try discriminate.
  by destruct o.
Qed.

(** The handler on a non-empty list of at most 20 elements. *)
Lemma Approval_put_list payload ids db :
  Py.get "loggedActivitiesIds" payload = inr (JList ids) ->
  ids <> [] -> (length ids <= 20)%nat ->
  Approval_put payload db =
    match collect_pending db ids [] with
    | inl e => (db, Raised e)
    | inr [] => (db, bad_input)
    | inr u => match approve_all u db with
               | (db', None) => (db', respond "Activity edited successfully" 200)
               | (db', Some e) => (db', Raised e)
               end
    end.
Proof.
  intros Hget Hne Hlen. unfold Approval_put.
  rewrite (get_list_is_object _ _ Hget), Hget. simpl.
  destruct (Z.ltb_spec 20 (Z.of_nat (length ids))) as [Hlt | _]; [lia |].
  by destruct ids.
Qed.

Lemma Approval_put_over_20 payload ids db :
  Py.get "loggedActivitiesIds" payload = inr (JList ids) ->
  (20 < length ids)%nat ->
  Approval_put payload db =
    (db, respond "Sorry, you can not approve more than 20 logged_activities at a go" 403).
Proof.
  intros Hget Hlen. unfold Approval_put.
  rewrite (get_list_is_object _ _ Hget), Hget. simpl.
  destruct (Z.ltb_spec 20 (Z.of_nat (length ids))) as [_ | Hle]; [done | lia].
Qed.

Lemma Approval_put_empty_list payload db :
  Py.get "loggedActivitiesIds" payload = inr (JList []) ->
  Approval_put payload db =
    (db, respond "A List/Array with at least one logged activity id is needed!" 400).
Proof.
  intros Hget. unfold Approval_put.
  by rewrite (get_list_is_object _ _ Hget), Hget.
Qed.

Lemma collect_pending_init db ids r :
  collect_pending db ids [] = inr r ->
  NoDup r.*1
  /\ from_table db r
  /\ forall k la,
       (k, la) ∈ r <->
       names db ids k /\ logged_activities db !! k = Some la
       /\ not_approvable la = false.
Proof.
  intros Hc. destruct (collect_pending_spec db ids [] r) as (H1 & H2 & H3); [| | done |].
  { apply NoDup_nil_2. }
  { intros k la H. by apply elem_of_nil in H. }
  split; [done |]. split; [done |]. intros k la. rewrite H3.
  split; [| by right]. intros [H | H]; [by apply elem_of_nil in H | done].
Qed.

(** The guard of the collecting loop lets through exactly the eligible
    rows. *)
Lemma not_approvable_false la : not_approvable la = false <-> eligible la.
Proof.
  unfold not_approvable, eligible. rewrite !orb_false_iff, !String.eqb_neq. tauto.
Qed.




(** Identifiers that are strings name themselves. *)
Lemma names_strings db ks k : names db (JStr <$> ks) k <-> k ∈ ks.
Proof.
  unfold names. split.
  - intros (x & Hx & Hk). apply list_elem_of_fmap in Hx as (k' & -> & Hk').
    simpl in Hk. by injection Hk as <-.
  - intros Hk. exists (JStr k). split; [| done].
    apply list_elem_of_fmap. by exists k.
Qed.

Lemma resolves_strings db ks : forallb (resolves db) (JStr <$> ks) = true.
Proof. induction ks as [| k ks IH]; simpl; done. Qed.

End BulkApproval.



(** The same request, run: the item named twice is credited once. *)
Example Approval_put_sample :
  total_points <$> societies (Approval_put Sample.bulk Sample.db).1 !! "s1" = Some 110
  /\ total_points <$> societies (Approval_put Sample.bulk Sample.db).1 !! "s2" = Some 7
  /\ la_status <$> logged_activities (Approval_put Sample.bulk Sample.db).1 !! "l1"
     = Some "approved"
  /\ (Approval_put Sample.bulk Sample.db).2
     = respond "Activity edited successfully" 200.
Proof. vm_compute. repeat split. Qed.

(** An element that [Query.get] refuses stops the request before anything
    is written; here the sample's library refuses the empty list. *)
Example Approval_put_refused_identifier :
  Approval_put (JObj [("loggedActivitiesIds", JList [JStr "l1"; JList []])]) Sample.db
  = (Sample.db, Raised (LibraryError "InvalidRequestError")).
Proof. reflexivity. Qed.

(** C3. The identifiers are measured with [len] before they are checked to
    be a list: a number in their place raises [TypeError] instead of the
    400 answer, and a string of 21 characters is answered 403. *)
Theorem Approval_put_ids_not_a_list db :
  Approval_put (JObj [("loggedActivitiesIds", JNum 5)]) db = (db, Raised TypeError)
  /\ Approval_put (JObj [("loggedActivitiesIds", JStr "aaaaaaaaaaaaaaaaaaaaa")]) db
     = (db, respond "Sorry, you can not approve more than 20 logged_activities at a go" 403).
Proof. split; reflexivity. Qed.

(** C10. Secretary review of a request without a JSON body raises
    [TypeError] at the test ['status' not in payload]; no response is
    built. *)
Theorem SecretaryReview_put_without_payload logged_activity_id db :
  SecretaryReview_put JNull logged_activity_id db = (db, Raised TypeError).
Proof. reflexivity. Qed.

(** An approval credits the society of the requesting user with the value
    of the request; the status the request has at that moment plays no
    part. *)
Lemma Numeration_put_approve o k db rr user sid soc :
  k <> "" ->
  Py.assoc "status" o = Some (JStr "approved") ->
  redemptions db !! k = Some rr ->
  users db !! rr_user_id rr = Some user ->
  user_society_id user = Some sid ->
  societies db !! sid = Some soc ->
  Numeration_put (JObj o) k db =
    (with_redemptions
       (<[k := set_rr_status (JStr "approved") rr]> (redemptions db))
       (with_societies (<[sid := set_used_points soc rr]> (societies db)) db),
     Returned (response_builder (MsgStatusChanged (JStr "approved")) 200)).
Proof.
  intros Hk Ho Hr Hu Hsid Hs. unfold Numeration_put.
  assert (Py.truthy (JObj o) = true) as -> by (by destruct o).
  apply String.eqb_neq in Hk. rewrite Hk. simpl.
  rewrite Ho, Hr. simpl. rewrite Hu, Hsid. simpl. by rewrite Hs.
Qed.

(** C1. The handler has no test of the current status.  A pending request of
    value 40 against a society with 30 used points is approved (70 used
    points); approving it again is answered 200 and credits it again (110);
    rejecting it after that is answered 200 too and rewrites the status.
    The guard exists, in [get_redemption_request], which answers 403 for the
    approved request, but the handler does not call it. *)
Theorem Numeration_put_approved_again :
  let db1 := (Numeration_put Sample.approve "r1" Sample.db).1 in
  let db2 := (Numeration_put Sample.approve "r1" db1).1 in
  let db3 := (Numeration_put Sample.reject "r1" db2).1 in
  used_points <$> societies db1 !! "s1" = Some 70
  /\ rr_status <$> redemptions db1 !! "r1" = Some (JStr "approved")
  /\ (Numeration_put Sample.approve "r1" db1).2
     = Returned (response_builder (MsgStatusChanged (JStr "approved")) 200)
  /\ used_points <$> societies db2 !! "s1" = Some 110
  /\ (Numeration_put Sample.reject "r1" db2).2
     = Returned (response_builder (MsgStatusChanged (JStr "rejected")) 200)
  /\ rr_status <$> redemptions db3 !! "r1" = Some (JStr "rejected")
  /\ get_redemption_request "r1" db1
     = inl (response_builder (Msg "RedemptionRequest already approved or rejected") 403).
Proof. vm_compute. repeat split. Qed.

(** Secretary review on an existing item: the status [pending] or
    [rejected] is stored and answered 200 without a look at the item's
    current status; any other status value is answered 400 and nothing
    changes. *)
Lemma SecretaryReview_put_spec o k db la st :
  logged_activities db !! k = Some la ->
  Py.assoc "status" o = Some st ->
  (forall s, st = JStr s -> s = "pending" \/ s = "rejected" ->
     SecretaryReview_put (JObj o) k db =
       (with_logged_activities (<[k := set_la_status s la]> (logged_activities db)) db,
        respond "successfully changed status" 200))
  /\ (st <> JStr "pending" -> st <> JStr "rejected" ->
      SecretaryReview_put (JObj o) k db = (db, respond "Invalid status value." 400)).
Proof.
  intros Hl Ho. unfold SecretaryReview_put. simpl. rewrite Ho, Hl. split.
  - intros s -> [-> | ->]; reflexivity.
  - intros Hp Hr. destruct st as [| | | s | |]; try reflexivity.
    destruct (String.eqb_spec s "pending") as [-> | _]; [done |].
    destruct (String.eqb_spec s "rejected") as [-> | _]; [done |].
    reflexivity.
Qed.

(** C4. The handler has no test of the item's current status.  The pending
    item [l1] (value 10, society at 100 points) is approved (110 points);
    secretary review then moves the approved item back to [pending], or on
    to [rejected], and answers 200; approved once more from [pending], it is
    credited a second time (120 points).  The handlers beside it test the
    status they start from: on the approved item a rejection is answered
    403, the owner's delete 403 and the owner's edit 401, each without a
    change. *)
Theorem SecretaryReview_put_approved_item :
  let approve_l1 := JObj [("loggedActivitiesIds", JList [JStr "l1"])] in
  let db1 := (Approval_put approve_l1 Sample.db).1 in
  let db2 := (SecretaryReview_put (JObj [("status", JStr "pending")]) "l1" db1).1 in
  let db3 := (Approval_put approve_l1 db2).1 in
  la_status <$> logged_activities db1 !! "l1" = Some "approved"
  /\ total_points <$> societies db1 !! "s1" = Some 110
  /\ (SecretaryReview_put (JObj [("status", JStr "pending")]) "l1" db1).2
     = respond "successfully changed status" 200
  /\ la_status <$> logged_activities db2 !! "l1" = Some "pending"
  /\ (Approval_put approve_l1 db2).2 = respond "Activity edited successfully" 200
  /\ total_points <$> societies db3 !! "s1" = Some 120
  /\ (SecretaryReview_put (JObj [("status", JStr "rejected")]) "l1" db1).2
     = respond "successfully changed status" 200
  /\ la_status
       <$> logged_activities
             (SecretaryReview_put (JObj [("status", JStr "rejected")]) "l1" db1).1 !! "l1"
     = Some "rejected"
  /\ Rejection_put "l1" db1
     = (db1, respond
               "This logged activity is either in-review, approved or already rejected"
               403)
  /\ LoggedActivity_delete Sample.env "l1" db1
     = (db1, respond "You are not allowed to perform this operation" 403)
  /\ LoggedActivity_put Sample.env (Some Sample.interview_edit) "l1" db1
     = (db1, respond "Not allowed. Activity is already in pre-approval." 401).
Proof. vm_compute. repeat split. Qed.

Section Ledger.

(** The derived balance is recomputed at every read. *)
Lemma remaining_points_eq soc :
  remaining_points soc = total_points soc - used_points soc.
Proof. reflexivity. Qed.

Lemma credit_nonneg u s :
  (forall e, e ∈ u -> 0 <= la_value e.2) -> 0 <= credit u s.
Proof.
  induction u as [| e u IH]; intros H; simpl; [lia |].
  assert (0 <= la_value e.2) by (apply H; by left).
  assert (0 <= credit u s) by (apply IH; intros; apply H; by right).
  destruct (String.eqb _ _); lia.
Qed.

(** Handlers that never write to the societies table. *)
Lemma LoggedActivities_post_societies env new_uuid payload db :
  societies (LoggedActivities_post env new_uuid payload db).1 = societies db.
Proof.
  unfold LoggedActivities_post, save_new.
  repeat case_match; simpl; reflexivity.
Qed.

Lemma LoggedActivity_put_societies env payload k db :
  societies (LoggedActivity_put env payload k db).1 = societies db.
Proof. unfold LoggedActivity_put. repeat case_match; simpl; reflexivity. Qed.

Lemma LoggedActivity_delete_societies env k db :
  societies (LoggedActivity_delete env k db).1 = societies db.
Proof. unfold LoggedActivity_delete. repeat case_match; simpl; reflexivity. Qed.

Lemma SecretaryReview_put_societies payload k db :
  societies (SecretaryReview_put payload k db).1 = societies db.
Proof. unfold SecretaryReview_put. repeat case_match; simpl; reflexivity. Qed.

Lemma Rejection_put_societies k db :
  societies (Rejection_put k db).1 = societies db.
Proof. unfold Rejection_put. repeat case_match; simpl; reflexivity. Qed.

(** Approval: every society is still there, with the same used points and
    with a total that has moved by a sum of values of stored items. *)
Lemma Approval_put_societies payload db s soc :
  societies db !! s = Some soc ->
  exists u,
    from_table db u
    /\ societies (Approval_put payload db).1 !! s = Some (add_total (credit u s) soc).
Proof.
  intros Hs.
  assert (Hsame : exists u, from_table db u
                    /\ societies db !! s = Some (add_total (credit u s) soc)).
  { exists []. split; [| by rewrite Hs, add_total_0].
    intros k la H. by apply elem_of_nil in H. }
  unfold Approval_put. repeat case_match; simpl; try exact Hsame; subst.
  all: match goal with
       | H : approve_all ?u ?d0 = _ |- _ =>
           apply approve_all_societies in H as [_ H];
           destruct (H s soc Hs) as (u' & Hsub & Hl);
           exists u'; split; [| exact Hl];
           intros k la Hin; apply Hsub in Hin;
           match goal with
           | Hc : collect_pending ?d1 ?ids [] = inr ?r |- _ =>
               exact (proj1 (proj2 (collect_pending_init d1 ids r Hc)) k la Hin)
           end
       end.
Qed.

(** Redemption approval or rejection: every society is still there, with
    the same total and with used points that have moved by the request's
    value (approval) or not at all. *)
Lemma Numeration_put_societies payload k db s soc :
  societies db !! s = Some soc ->
  societies (Numeration_put payload k db).1 !! s = Some soc
  \/ exists rr,
       redemptions db !! k = Some rr
       /\ Py.getitem "status" payload = inr (JStr "approved")
       /\ societies (Numeration_put payload k db).1 !! s
          = Some (set_used_points soc rr).
Proof.
  intros Hs. unfold Numeration_put.
  repeat case_match; simpl; try (by left); subst.
  destruct (decide (s0 = s)) as [-> | Hne].
  - right. eexists. split; [done |]. split.
    + match goal with H : is_approved ?j = true |- _ =>
        destruct j; try discriminate H;
        apply String.eqb_eq in H; by subst end.
    + rewrite lookup_insert_eq.
      match goal with H : _ ≫= _ = Some _ |- _ =>
        apply bind_Some in H as (k' & _ & H);
        apply fmap_Some in H as (soc' & Hl & [= -> ->]) end.
      congruence.
  - left. by rewrite lookup_insert_ne.
Qed.

End Ledger.

(** The reading of C5 in which no request can lower a ledger field fails:
    the sign of a value is never checked.  A submission with -3 participants
    is valued 10 * -3; once the secretary has passed it on, its approval
    takes the society's total points from 100 to 70. *)
Lemma negative_value_lowers_total_points : ~ ledger_accumulate_only.
Proof.
  intros H.
  destruct (H (OpApprove (JObj [("loggedActivitiesIds", JList [JStr "l9"])]))
              Sample.db_negative "s1" Sample.phoenix)
    as (soc' & Hl & Htotal & _).
  { vm_compute. reflexivity. }
  vm_compute in Hl. injection Hl as <-. vm_compute in Htotal. by apply Htotal.
Qed.

(** C5, amended. After any request every society is still there and its
    remaining points are its total points minus its used points; when the
    stored values of logged activities and redemption requests are not
    negative, neither its total points nor its used points have gone down,
    and its remaining points have gone down only if the request was a
    redemption approval. *)
Theorem step_ledger op db s soc :
  nonneg_values db ->
  societies db !! s = Some soc ->
  exists soc',
    societies (step op db).1 !! s = Some soc'
    /\ remaining_points soc' = total_points soc' - used_points soc'
    /\ total_points soc <= total_points soc'
    /\ used_points soc <= used_points soc'
    /\ (remaining_points soc' < remaining_points soc ->
        exists payload k,
          op = OpNumerate payload k
          /\ Py.getitem "status" payload = inr (JStr "approved")).
Proof.
  intros [Hla Hrr] Hs.
  assert (Hsame : forall db', societies db' = societies db ->
            exists soc',
              societies db' !! s = Some soc'
              /\ remaining_points soc' = total_points soc' - used_points soc'
              /\ total_points soc <= total_points soc'
              /\ used_points soc <= used_points soc'
              /\ (remaining_points soc' < remaining_points soc ->
                  exists payload k,
                    op = OpNumerate payload k
                    /\ Py.getitem "status" payload = inr (JStr "approved"))).
  { intros db' ->. exists soc. repeat split; try done; lia. }
  destruct op as [env u p | env p k | env k | p k | p | k | p k]; simpl.
  - apply Hsame, LoggedActivities_post_societies.
  - apply Hsame, LoggedActivity_put_societies.
  - apply Hsame, LoggedActivity_delete_societies.
  - apply Hsame, SecretaryReview_put_societies.
  - destruct (Approval_put_societies p db s soc Hs) as (u & Hu & Hl).
    assert (0 <= credit u s).
    { apply credit_nonneg. intros [k la] He. apply Hu in He. exact (Hla k la He). }
    eexists. split; [exact Hl |].
    unfold remaining_points, total_points, used_points. simpl.
    repeat split; try lia.
  - apply Hsame, Rejection_put_societies.
  - destruct (Numeration_put_societies p k db s soc Hs) as [Hl | (rr & Hr & Hp & Hl)].
    + exists soc. repeat split; try done; lia.
    + assert (0 <= rr_value rr) by exact (Hrr k rr Hr).
      eexists. split; [exact Hl |].
      unfold remaining_points, total_points, used_points. simpl.
      repeat split; try lia. intros _. by exists p, k.
Qed.

Lemma step_ledger_witness :
  exists soc',
    societies (step (OpNumerate Sample.approve "r1") Sample.db).1 !! "s1" = Some soc'
    /\ remaining_points soc' = total_points soc' - used_points soc'
    /\ total_points Sample.phoenix <= total_points soc'
    /\ used_points Sample.phoenix <= used_points soc'
    /\ (remaining_points soc' < remaining_points Sample.phoenix ->
        exists payload k,
          OpNumerate Sample.approve "r1" = OpNumerate payload k
          /\ Py.getitem "status" payload = inr (JStr "approved")).
Proof.
  apply (step_ledger (OpNumerate Sample.approve "r1") Sample.db "s1" Sample.phoenix).
  - split; apply (bool_decide_unpack _); vm_compute; exact I.
  - vm_compute. reflexivity.
Defined.

Section Valuation.

Lemma elem_of_multi_participant_activities db k :
  k ∈ multi_participant_activities db <->
  exists t, activity_types db !! k = Some t
            /\ supports_multiple_participants t = true.
Proof.
  unfold multi_participant_activities. rewrite elem_of_dom. split.
  - intros [t Ht]. apply map_lookup_filter_Some in Ht as [Hl Hs]. eauto.
  - intros (t & Hl & Hs). exists t. by apply map_lookup_filter_Some.
Qed.

(** The staleness check, once the activity is resolved. *)
Lemma parse_tail_stale today result a t d :
  30 < today - d -> parse_tail today result a t d = inl stale.
Proof.
  intros H. unfold parse_tail.
  by destruct (Z.ltb_spec 30 (today - d)); [| lia].
Qed.

Lemma parse_tail_single today result a t d :
  today - d <= 30 -> supports_multiple_participants t.2 = false ->
  parse_tail today result a t d = inr (mkParsedResult a t d (at_value t.2)).
Proof.
  intros H Hs. unfold parse_tail.
  destruct (Z.ltb_spec 30 (today - d)); [lia |]. by rewrite Hs.
Qed.

Lemma parse_tail_multi today result a t d n :
  today - d <= 30 -> supports_multiple_participants t.2 = true ->
  f_no_of_participants result = Some n ->
  parse_tail today result a t d = inr (mkParsedResult a t d (at_value t.2 * n)).
Proof.
  intros H Hs Hn. unfold parse_tail.
  destruct (Z.ltb_spec 30 (today - d)); [lia |]. by rewrite Hs, Hn.
Qed.

End Valuation.

(** C6. In the branch that takes an activity type and a date, a date after
    today is answered "Invalid activity date" before the type is looked up
    and before the staleness check.  Once the activity, its type and its
    date are resolved, a date exactly 30 days old yields a parsed result
    with that date and a date 31 or more days old is answered "You're
    late". *)
Theorem parse_log_activity_fields_dates today db result :
  (forall d,
     Py.truthy_str (f_activity_id result) = false ->
     f_date result = Some d -> today < d ->
     parse_log_activity_fields today db result
     = inl (respond "Invalid activity date" 422))
  /\ (forall a t d,
        resolve_activity today db result = inr (a, t, d) ->
        (supports_multiple_participants t.2 = true ->
         is_Some (f_no_of_participants result)) ->
        (today - d = 30 ->
         exists pr, parse_log_activity_fields today db result = inr pr
                    /\ pr_activity_date pr = d)
        /\ (31 <= today - d ->
            parse_log_activity_fields today db result = inl stale)).
Proof.
  split.
  - intros d Hid Hd Hlt. unfold parse_log_activity_fields, resolve_activity.
    rewrite Hid, Hd. by destruct (Z.ltb_spec today d); [| lia].
  - intros a t d Hres Hn. unfold parse_log_activity_fields. rewrite Hres. split.
    + intros H30.
      destruct (supports_multiple_participants t.2) eqn:Hs.
      * destruct (Hn eq_refl) as [n Hn'].
        rewrite (parse_tail_multi _ _ _ _ _ n) by (done || lia). eauto.
      * rewrite parse_tail_single by (done || lia). eauto.
    + intros H31. apply parse_tail_stale. lia.
Qed.

Lemma parse_log_activity_fields_dates_witness :
  parse_log_activity_fields 999 Sample.db Sample.interview_log
  = inl (respond "Invalid activity date" 422)
  /\ (exists pr, parse_log_activity_fields 1030 Sample.db Sample.interview_log = inr pr
                 /\ pr_activity_date pr = 1000)
  /\ parse_log_activity_fields 1031 Sample.db Sample.interview_log = inl stale
  /\ (exists pr, parse_log_activity_fields 1030 Sample.db Sample.hackathon_log = inr pr
                 /\ pr_activity_date pr = 1000)
  /\ parse_log_activity_fields 1031 Sample.db Sample.hackathon_log = inl stale.
Proof.
  split; [| split; [| split; [| split]]].
  - apply (proj1 (parse_log_activity_fields_dates 999 Sample.db Sample.interview_log) 1000);
      [reflexivity | reflexivity | lia].
  - apply (proj2 (parse_log_activity_fields_dates 1030 Sample.db Sample.interview_log)
             None ("t1", Sample.interviews) 1000);
      [vm_compute; reflexivity | intros _; by eexists | lia].
  - apply (proj2 (parse_log_activity_fields_dates 1031 Sample.db Sample.interview_log)
             None ("t1", Sample.interviews) 1000);
      [vm_compute; reflexivity | intros _; by eexists | lia].
  - apply (proj2 (parse_log_activity_fields_dates 1030 Sample.db Sample.hackathon_log)
             (Some ("a1", Sample.hackathon)) ("t2", Sample.blog) 1000);
      [vm_compute; reflexivity | discriminate | lia].
  - apply (proj2 (parse_log_activity_fields_dates 1031 Sample.db Sample.hackathon_log)
             (Some ("a1", Sample.hackathon)) ("t2", Sample.blog) 1000);
      [vm_compute; reflexivity | discriminate | lia].
Defined.

(** C7. A submission whose resolved type supports multiple participants
    and that lacks a truthy description or number of participants is
    refused (400, or 422 when the user has no society) and stores nothing.
    Once the activity is resolved and not stale, the value is the type's
    value when the type does not support multiple participants, and the
    type's value times the number of participants when it does. *)
Theorem multiple_participants_value today db result :
  (forall env new_uuid t,
     resolved_activity_type db result = Some t ->
     supports_multiple_participants t = true ->
     Py.truthy_int (f_no_of_participants result)
     && Py.truthy_str (f_description result) = false ->
     exists r,
       LoggedActivities_post env new_uuid (Some result) db = (db, Returned r)
       /\ (status_code r = 400 \/ status_code r = 422))
  /\ (forall a t d,
        resolve_activity today db result = inr (a, t, d) ->
        today - d <= 30 ->
        (supports_multiple_participants t.2 = false ->
         parse_log_activity_fields today db result
         = inr (mkParsedResult a t d (at_value t.2)))
        /\ (forall n,
              supports_multiple_participants t.2 = true ->
              f_no_of_participants result = Some n ->
              parse_log_activity_fields today db result
              = inr (mkParsedResult a t d (at_value t.2 * n)))).
Proof.
  split.
  - intros env new_uuid t Hres Hs Hmiss.
    unfold LoggedActivities_post, schema_load.
    destruct (validate_logged_activity db result) as [e |] eqn:Hv.
    { eexists. split; [reflexivity | by left]. }
    destruct (current_society env db) as [[sid soc] |].
    2: { eexists. split; [reflexivity | by right]. }
    unfold validate_logged_activity in Hv. unfold resolved_activity_type in Hres.
    unfold parse_log_activity_fields, resolve_activity.
    destruct (Py.truthy_str (f_activity_id result)) eqn:Ha;
      destruct (Py.truthy_str (f_activity_type_id result)) eqn:Ht;
      simpl in Hv; try discriminate Hv.
    + destruct (f_activity_id result) as [k |]; [| discriminate Ha].
      simpl in *. destruct (activities db !! k) as [a |]; [| discriminate Hres].
      simpl. rewrite Hres, Hs, Hmiss. simpl.
      eexists. split; [reflexivity | by left].
    + exfalso. destruct (f_activity_type_id result) as [k |]; [| discriminate Ht].
      simpl in Hres.
      assert (Hin : bool_decide (k ∈ multi_participant_activities db) = true).
      { apply bool_decide_eq_true, elem_of_multi_participant_activities. eauto. }
      simpl in Hv. rewrite Hin in Hv.
      destruct (Py.truthy_str (f_description result));
        destruct (Py.truthy_date (f_date result));
        destruct (Py.truthy_int (f_no_of_participants result));
        simpl in *; discriminate.
  - intros a t d Hres Hd. unfold parse_log_activity_fields. rewrite Hres. split.
    + intros Hs. by apply parse_tail_single.
    + intros n Hs Hn. by apply parse_tail_multi.
Qed.

(** Value 10, three participants: 30. *)
Lemma multiple_participants_value_witness :
  (exists r,
     LoggedActivities_post Sample.env "l9" (Some Sample.interview_log_short) Sample.db
     = (Sample.db, Returned r)
     /\ (status_code r = 400 \/ status_code r = 422))
  /\ parse_log_activity_fields 1030 Sample.db Sample.interview_log
     = inr (mkParsedResult None ("t1", Sample.interviews) 1000 30)
  /\ parse_log_activity_fields 1030 Sample.db Sample.hackathon_log
     = inr (mkParsedResult (Some ("a1", Sample.hackathon)) ("t2", Sample.blog) 1000 5).
Proof.
  split; [| split].
  - apply (proj1 (multiple_participants_value 1030 Sample.db Sample.interview_log_short)
             Sample.env "l9" Sample.interviews);
      [vm_compute; reflexivity | reflexivity | reflexivity].
  - apply (proj2 (proj2 (multiple_participants_value 1030 Sample.db Sample.interview_log)
                    None ("t1", Sample.interviews) 1000
                    ltac:(vm_compute; reflexivity) ltac:(lia)) 3);
      reflexivity.
  - apply (proj1 (proj2 (multiple_participants_value 1030 Sample.db Sample.hackathon_log)
                    (Some ("a1", Sample.hackathon)) ("t2", Sample.blog) 1000
                    ltac:(vm_compute; reflexivity) ltac:(lia))).
    reflexivity.
Defined.

(** C9. A submission that carries both identifiers, or neither of them, is
    answered 400 with the validation error of the schema and stores
    nothing; so is a submission without any data. *)
Theorem LoggedActivities_post_either_or env new_uuid payload db :
  Py.truthy_str (f_activity_type_id payload) = Py.truthy_str (f_activity_id payload) ->
  LoggedActivities_post env new_uuid (Some payload) db = (db, Returned either_or_error)
  /\ LoggedActivities_post env new_uuid None db
     = (db, respond "Data for creation must be provided." 400).
Proof.
  intros H. split; [| reflexivity].
  unfold LoggedActivities_post, schema_load, validate_logged_activity.
  rewrite H. by destruct (Py.truthy_str (f_activity_id payload)).
Qed.

Lemma LoggedActivities_post_either_or_witness :
  (LoggedActivities_post Sample.env "l9" (Some Sample.both_ids) Sample.db
   = (Sample.db, Returned either_or_error)
   /\ LoggedActivities_post Sample.env "l9" None Sample.db
      = (Sample.db, respond "Data for creation must be provided." 400))
  /\ (LoggedActivities_post Sample.env "l9" (Some Sample.no_fields) Sample.db
      = (Sample.db, Returned either_or_error)
      /\ LoggedActivities_post Sample.env "l9" None Sample.db
         = (Sample.db, respond "Data for creation must be provided." 400)).
Proof.
  split.
  - apply (LoggedActivities_post_either_or Sample.env "l9" Sample.both_ids Sample.db).
    reflexivity.
  - apply (LoggedActivities_post_either_or Sample.env "l9" Sample.no_fields Sample.db).
    reflexivity.
Defined.

(** C8. The stored item is found only for its owner.  When it is not in
    review, an edit is refused (401 once the payload has passed validation,
    400 before) and a delete is refused (403), and the session is left as it
    is; for any other user both are refused with 404.  An edit by the owner
    of an item in review stores the value that the valuation computes from
    the new inputs, completed with the stored type and date. *)
Theorem LoggedActivity_put_delete_guards env payload k db la :
  logged_activities db !! k = Some la ->
  (la_user_id la = user_uuid (current_user env) ->
   la_status la <> "in review" ->
   (exists r, LoggedActivity_put env payload k db = (db, Returned r)
              /\ (status_code r = 400 \/ status_code r = 401))
   /\ (forall p, payload = Some p -> validate_logged_activity db p = None ->
         LoggedActivity_put env payload k db
         = (db, respond "Not allowed. Activity is already in pre-approval." 401))
   /\ LoggedActivity_delete env k db
      = (db, respond "You are not allowed to perform this operation" 403))
  /\ (la_user_id la <> user_uuid (current_user env) ->
      (exists r, LoggedActivity_put env payload k db = (db, Returned r)
                 /\ (status_code r = 400 \/ status_code r = 404))
      /\ LoggedActivity_delete env k db
         = (db, respond "Logged Activity does not exist!" 404))
  /\ (forall p pr,
        la_user_id la = user_uuid (current_user env) ->
        la_status la = "in review" ->
        payload = Some p ->
        validate_logged_activity db p = None ->
        parse_log_activity_fields (today env) db (edit_defaults la p) = inr pr ->
        exists la',
          LoggedActivity_put env payload k db
          = (with_logged_activities (<[k := la']> (logged_activities db)) db,
             respond "Activity edited successfully" 200)
          /\ la_value la' = pr_activity_value pr
          /\ la_status la' = "in review").
Proof.
  intros Hl.
  unfold LoggedActivity_put, LoggedActivity_delete, own_logged_activity, schema_load.
  rewrite Hl. split; [| split].
  - intros Hown Hst. apply String.eqb_eq in Hown. rewrite Hown.
    apply String.eqb_neq in Hst. rewrite Hst. simpl.
    split; [| split; [| done]].
    + destruct payload as [p |]; [| eexists; split; [reflexivity | by left]].
      destruct (validate_logged_activity db p);
        eexists; (split; [reflexivity |]); [by left | by right].
    + intros p -> Hv. by rewrite Hv.
  - intros Hown. apply String.eqb_neq in Hown. rewrite Hown.
    split; [| done].
    destruct payload as [p |]; [| eexists; split; [reflexivity | by left]].
    destruct (validate_logged_activity db p);
      eexists; (split; [reflexivity |]); [by left | by right].
  - intros p pr Hown Hst -> Hv Hparse. apply String.eqb_eq in Hown.
    rewrite Hown, Hv, Hst, Hparse. simpl. eexists. split; [reflexivity |].
    simpl. by rewrite Hst.
Qed.

(** An item that is approved, one that belongs to someone else, and an edit
    of the item in review that turns value 7 into 10 times 2. *)
Lemma LoggedActivity_put_delete_guards_witness :
  (LoggedActivity_put Sample.env (Some Sample.interview_edit) "l2" Sample.db
   = (Sample.db, respond "Not allowed. Activity is already in pre-approval." 401)
   /\ LoggedActivity_delete Sample.env "l2" Sample.db
      = (Sample.db, respond "You are not allowed to perform this operation" 403))
  /\ LoggedActivity_delete (mkEnv 1030 Sample.president) "l3" Sample.db
     = (Sample.db, respond "Logged Activity does not exist!" 404)
  /\ exists la',
       LoggedActivity_put Sample.env (Some Sample.interview_edit) "l3" Sample.db
       = (with_logged_activities (<["l3" := la']> (logged_activities Sample.db)) Sample.db,
          respond "Activity edited successfully" 200)
       /\ la_value la' = 20
       /\ la_status la' = "in review".
Proof.
  split; [| split].
  - destruct (proj1 (LoggedActivity_put_delete_guards Sample.env
                       (Some Sample.interview_edit) "l2" Sample.db
                       (Sample.logged 5 "approved" "s1") ltac:(vm_compute; reflexivity))
                eq_refl ltac:(discriminate)) as (_ & Hput & Hdel).
    split; [| exact Hdel].
    apply (Hput Sample.interview_edit); [reflexivity | vm_compute; reflexivity].
  - apply (proj1 (proj2 (LoggedActivity_put_delete_guards (mkEnv 1030 Sample.president)
                           None "l3" Sample.db
                           (Sample.logged 7 "in review" "s1")
                           ltac:(vm_compute; reflexivity)))).
    discriminate.
  - apply (proj2 (proj2 (LoggedActivity_put_delete_guards Sample.env
                           (Some Sample.interview_edit) "l3" Sample.db
                           (Sample.logged 7 "in review" "s1")
                           ltac:(vm_compute; reflexivity)))
             Sample.interview_edit
             (mkParsedResult None ("t1", Sample.interviews) 1010 20));
      try reflexivity; vm_compute; reflexivity.
Defined.


(** * More properties of the handlers *)

Section Requests.

Lemma with_logged_activities_id db : with_logged_activities (logged_activities db) db = db.
Proof. by destruct db. Qed.

Lemma set_la_status_twice a b la :
  set_la_status a (set_la_status b la) = set_la_status a la.
Proof. reflexivity. Qed.

Lemma set_la_status_id la : set_la_status (la_status la) la = la.
Proof. by destruct la. Qed.

Lemma same_claim_set_la_status st la : same_claim la (set_la_status st la).
Proof. by repeat split. Qed.

Lemma same_claim_refl la : same_claim la la.
Proof. by repeat split. Qed.

(** The approving loop rewrites statuses only: every stored row is still
    there afterwards, with at most its status changed. *)
Lemma approve_all_rows u : forall db db' x,
  from_table_upto_status db u ->
  approve_all u db = (db', x) ->
  forall k la, logged_activities db !! k = Some la ->
    exists st, logged_activities db' !! k = Some (set_la_status st la).
Proof.
  induction u as [| [k0 la0] u IH]; intros db db' x Hu Hrun k la Hl; simpl in Hrun.
  - injection Hrun as <- <-. exists (la_status la). by rewrite set_la_status_id.
  - destruct (Hu k0 la0) as [st0 Hl0]; [by left |].
    set (db1 := with_logged_activities
                  (<[k0 := set_la_status "approved" la0]> (logged_activities db)) db).
    assert (Hrow : exists st, logged_activities db1 !! k = Some (set_la_status st la)).
    { subst db1. simpl. destruct (decide (k0 = k)) as [-> | Hne].
      - rewrite lookup_insert_eq. exists "approved". f_equal.
        rewrite Hl0 in Hl. injection Hl as <-. reflexivity.
      - rewrite lookup_insert_ne by done. exists (la_status la).
        by rewrite set_la_status_id. }
    assert (Hu1 : forall d, logged_activities d = logged_activities db1 ->
                            from_table_upto_status d u).
    { intros d Hd k' la' Hin. rewrite Hd. subst db1. simpl.
      destruct (decide (k0 = k')) as [-> | Hne].
      - rewrite lookup_insert_eq. destruct (Hu k' la') as [st' Hl']; [by right |].
        assert (Heq : set_la_status st0 la0 = set_la_status st' la') by congruence.
        exists "approved". f_equal.
        by rewrite <- (set_la_status_twice "approved" st0 la0), Heq.
      - rewrite lookup_insert_ne by done. apply Hu. by right. }
    unfold approve_one in Hrun. simpl in Hrun.
    destruct (societies db !! la_society_id la0) as [soc |].
    + destruct Hrow as [st Hrow].
      eapply IH in Hrun as [st' Hl']; [| by apply Hu1 | exact Hrow].
      exists st'. by rewrite Hl'.
    + injection Hrun as <- <-. exact Hrow.
Qed.

Lemma from_table_upto_status_of db u : from_table db u -> from_table_upto_status db u.
Proof.
  intros Hu k la Hin. exists (la_status la). rewrite set_la_status_id. by apply Hu.
Qed.

(** An approval that names one eligible item whose society exists. *)
Lemma Approval_put_single k db la soc :
  logged_activities db !! k = Some la ->
  not_approvable la = false ->
  societies db !! la_society_id la = Some soc ->
  Approval_put (ids_payload [JStr k]) db =
    (with_societies
       (<[la_society_id la := set_total_points soc (set_la_status "approved" la)]>
          (societies db))
       (with_logged_activities
          (<[k := set_la_status "approved" la]> (logged_activities db)) db),
     respond "Activity edited successfully" 200).
Proof.
  intros Hl Hn Hs. unfold Approval_put, ids_payload. simpl.
  rewrite Hl, Hn. simpl. unfold approve_one. simpl. by rewrite Hs.
Qed.

(** An approval that names one item that is not eligible. *)
Lemma Approval_put_single_refused k db la :
  logged_activities db !! k = Some la ->
  not_approvable la = true ->
  Approval_put (ids_payload [JStr k]) db = (db, bad_input).
Proof.
  intros Hl Hn. unfold Approval_put, ids_payload. simpl. by rewrite Hl, Hn.
Qed.

End Requests.



(** X2. Once a logged activity has left review, no request removes it or
    changes its value, owner, society, date or type; only its status can
    still move. *)
Theorem step_keeps_reviewed_item op db k la :
  logged_activities db !! k = Some la ->
  la_status la <> "in review" ->
  exists la',
    logged_activities (step op db).1 !! k = Some la' /\ same_claim la la'.
Proof.
  intros Hl Hst.
  assert (Hsame : exists la', logged_activities db !! k = Some la' /\ same_claim la la').
  { exists la. split; [done | apply same_claim_refl]. }
  apply String.eqb_neq in Hst.
  destruct op as [env u p | env p k' | env k' | p k' | p | k' | p k']; simpl.
  - unfold LoggedActivities_post, save_new.
    repeat case_match; simpl; try exact Hsame; subst.
    all: rewrite lookup_insert_ne; [exact Hsame | by intros ->; simplify_eq].
  - unfold LoggedActivity_put, own_logged_activity.
    repeat case_match; simpl; try exact Hsame; subst.
    all: rewrite lookup_insert_ne; [exact Hsame |].
    all: intros ->; simplify_eq;
      match goal with H : negb ?b = false |- _ => destruct b; discriminate end.
  - unfold LoggedActivity_delete, own_logged_activity.
    repeat case_match; simpl; try exact Hsame; subst.
    all: rewrite lookup_delete_ne; [exact Hsame |].
    all: intros ->; simplify_eq;
      match goal with H : negb ?b = false |- _ => destruct b; discriminate end.
  - unfold SecretaryReview_put.
    repeat case_match; simpl; try exact Hsame; subst.
    all: destruct (decide (k' = k)) as [-> | Hne];
      [rewrite lookup_insert_eq; simplify_eq; eexists; split;
         [reflexivity | apply same_claim_set_la_status]
      | rewrite lookup_insert_ne by done; exact Hsame].
  - unfold Approval_put.
    repeat case_match; simpl; try exact Hsame; subst.
    all: match goal with
         | H : approve_all ?u ?d = _, Hc : collect_pending ?d ?ids [] = inr ?u |- _ =>
             eapply approve_all_rows in H as [st Hrow];
               [ rewrite Hrow; eexists; split;
                   [reflexivity | apply same_claim_set_la_status]
               | apply from_table_upto_status_of;
                 exact (proj1 (proj2 (collect_pending_init d ids u Hc)))
               | exact Hl ]
         end.
  - unfold Rejection_put.
    repeat case_match; simpl; try exact Hsame; subst.
    all: destruct (decide (k' = k)) as [-> | Hne];
      [rewrite lookup_insert_eq; simplify_eq; eexists; split;
         [reflexivity | apply same_claim_set_la_status]
      | rewrite lookup_insert_ne by done; exact Hsame].
  - unfold Numeration_put. repeat case_match; simpl; exact Hsame.
Qed.

Lemma step_keeps_reviewed_item_witness :
  exists la',
    logged_activities
      (step (OpEdit Sample.env (Some Sample.interview_edit) "l1") Sample.db).1 !! "l1"
    = Some la'
    /\ same_claim (Sample.logged 10 "pending" "s1") la'.
Proof.
  apply (step_keeps_reviewed_item
           (OpEdit Sample.env (Some Sample.interview_edit) "l1") Sample.db "l1"
           (Sample.logged 10 "pending" "s1")).
  - vm_compute. reflexivity.
  - discriminate.
Defined.

Section Lifecycle.

(** A successful bulk approval is the run of the loop on the collected
    set. *)
Lemma Approval_put_ok payload ids db u :
  Py.get "loggedActivitiesIds" payload = inr (JList ids) ->
  ids <> [] -> (length ids <= 20)%nat ->
  society_fk db ->
  collect_pending db ids [] = inr u ->
  u <> [] ->
  exists db',
    Approval_put payload db = (db', respond "Activity edited successfully" 200)
    /\ approve_all u db = (db', None).
Proof.
  intros Hget Hne Hlen Hfk Hc Hu.
  rewrite (Approval_put_list _ _ db Hget Hne Hlen), Hc.
  destruct (collect_pending_init db ids u Hc) as (_ & Hft & _).
  destruct (approve_all_spec u db) as (db' & Hrun & _).
  { intros [k la] He. apply Hft in He. exact (Hfk k la He). }
  exists db'. split; [| done].
  destruct u; [done |]. by rewrite Hrun.
Qed.

Lemma not_approvable_pending la :
  la_status la = "pending" -> not_approvable la = la_redeemed la.
Proof.
  intros H. unfold not_approvable. rewrite H. simpl. by destruct (la_redeemed la).
Qed.

End Lifecycle.

(** X3. Rejection is final for success ops: a pending item is rejected
    with 200 and without a change to any society; after that a second
    rejection is answered 403 and an approval that names the item is
    answered 400, and neither changes anything. *)
Theorem Rejection_put_is_final k db la :
  logged_activities db !! k = Some la ->
  la_status la = "pending" ->
  exists db',
    Rejection_put k db = (db', respond "Activity successfully rejected" 200)
    /\ logged_activities db' !! k = Some (set_la_status "rejected" la)
    /\ societies db' = societies db
    /\ Rejection_put k db'
       = (db', respond
                 "This logged activity is either in-review, approved or already rejected"
                 403)
    /\ Approval_put (ids_payload [JStr k]) db' = (db', bad_input).
Proof.
  intros Hl Hst. eexists. split.
  { unfold Rejection_put. rewrite Hl, Hst. reflexivity. }
  assert (Hl' : forall m, (<[k := set_la_status "rejected" la]> m : gmap _ _) !! k
                          = Some (set_la_status "rejected" la))
    by (intros; apply lookup_insert_eq).
  split; [apply Hl' |]. split; [reflexivity |]. split.
  - unfold Rejection_put. simpl. by rewrite Hl'.
  - apply (Approval_put_single_refused k _ (set_la_status "rejected" la)).
    + apply Hl'.
    + unfold not_approvable. simpl. by destruct (la_redeemed la).
Qed.

Lemma Rejection_put_is_final_witness :
  exists db',
    Rejection_put "l1" Sample.db = (db', respond "Activity successfully rejected" 200)
    /\ logged_activities db' !! "l1"
       = Some (set_la_status "rejected" (Sample.logged 10 "pending" "s1"))
    /\ societies db' = societies Sample.db
    /\ Rejection_put "l1" db'
       = (db', respond
                 "This logged activity is either in-review, approved or already rejected"
                 403)
    /\ Approval_put (ids_payload [JStr "l1"]) db' = (db', bad_input).
Proof.
  apply (Rejection_put_is_final "l1" Sample.db (Sample.logged 10 "pending" "s1")).
  - vm_compute. reflexivity.
  - reflexivity.
Defined.

(** X4. Approval is final for success ops too: when every lookup of the
    request answers, an eligible row that an element of the request names is
    approved by the call, which answers 200, and rejecting it afterwards is
    answered 403 and changes nothing, so the credit stays. *)
Theorem approved_item_cannot_be_rejected payload ids db k la :
  Py.get "loggedActivitiesIds" payload = inr (JList ids) ->
  ids <> [] -> (length ids <= 20)%nat ->
  society_fk db ->
  forallb (resolves db) ids = true ->
  names db ids k ->
  logged_activities db !! k = Some la ->
  eligible la ->
  exists db',
    Approval_put payload db = (db', respond "Activity edited successfully" 200)
    /\ logged_activities db' !! k = Some (set_la_status "approved" la)
    /\ Rejection_put k db'
       = (db', respond
                 "This logged activity is either in-review, approved or already rejected"
                 403).
Proof.
  intros Hget Hne Hlen Hfk Hres Hname Hl Hel.
  destruct (proj1 (collect_pending_total db ids []) Hres) as [u Hc].
  destruct (collect_pending_init db ids u Hc) as (Hnd & Hft & Hin).
  assert (He : (k, la) ∈ u).
  { apply Hin. by rewrite not_approvable_false. }
  assert (Hu : u <> []) by (intros ->; by apply elem_of_nil in He).
  destruct (Approval_put_ok _ _ _ _ Hget Hne Hlen Hfk Hc Hu) as (db' & Hput & Hrun).
  exists db'. split; [done |].
  destruct (approve_all_spec u db) as (db'' & Hrun' & _ & _ & Hrows & _).
  { intros [k' la'] He'. apply Hft in He'. exact (Hfk k' la' He'). }
  rewrite Hrun in Hrun'. injection Hrun' as <-.
  split; [exact (Hrows Hnd k la He) |].
  unfold Rejection_put. by rewrite (Hrows Hnd k la He).
Qed.

(** The request names [l4] by a list of one key. *)
Lemma approved_item_cannot_be_rejected_witness :
  exists db',
    Approval_put (ids_payload Sample.ids_nested) Sample.db
    = (db', respond "Activity edited successfully" 200)
    /\ logged_activities db' !! "l4"
       = Some (set_la_status "approved" (Sample.logged 7 "pending" "s2"))
    /\ Rejection_put "l4" db'
       = (db', respond
                 "This logged activity is either in-review, approved or already rejected"
                 403).
Proof.
  apply (approved_item_cannot_be_rejected (ids_payload Sample.ids_nested)
           Sample.ids_nested Sample.db "l4" (Sample.logged 7 "pending" "s2")).
  - reflexivity.
  - discriminate.
  - simpl. lia.
  - apply (bool_decide_unpack _). vm_compute. exact I.
  - reflexivity.
  - exists (JList [JStr "l4"]). split; [| reflexivity].
    apply list_elem_of_In. simpl. tauto.
  - vm_compute. reflexivity.
  - repeat split; discriminate.
Defined.

(** X5. Secretary review can send an approved item back to pending, and a
    second approval then credits it a second time: after approval, review
    to [pending] and approval again, all answered 200, the society has
    gained the item's value twice. *)
Theorem reopened_item_is_credited_again k db la soc :
  logged_activities db !! k = Some la ->
  la_status la = "pending" ->
  la_redeemed la = false ->
  societies db !! la_society_id la = Some soc ->
  let ok := respond "Activity edited successfully" 200 in
  let db1 := (Approval_put (ids_payload [JStr k]) db).1 in
  let db2 := (SecretaryReview_put (status_payload "pending") k db1).1 in
  let db3 := (Approval_put (ids_payload [JStr k]) db2).1 in
  (Approval_put (ids_payload [JStr k]) db).2 = ok
  /\ (SecretaryReview_put (status_payload "pending") k db1).2
     = respond "successfully changed status" 200
  /\ (Approval_put (ids_payload [JStr k]) db2).2 = ok
  /\ societies db1 !! la_society_id la = Some (add_total (la_value la) soc)
  /\ societies db3 !! la_society_id la
     = Some (add_total (la_value la + la_value la) soc).
Proof.
  intros Hl Hst Hred Hs. simpl.
  assert (Hn : not_approvable la = false) by (by rewrite not_approvable_pending).
  rewrite (Approval_put_single k db la soc Hl Hn Hs). simpl.
  unfold SecretaryReview_put. simpl. rewrite lookup_insert_eq. simpl.
  rewrite (Approval_put_single k _ (set_la_status "pending" la)
             (set_total_points soc (set_la_status "approved" la))).
  - simpl. rewrite !lookup_insert_eq. repeat split.
    f_equal. unfold add_total, set_total_points. simpl. f_equal. lia.
  - simpl. by rewrite lookup_insert_eq.
  - by rewrite not_approvable_pending.
  - simpl. by rewrite lookup_insert_eq.
Qed.

Lemma reopened_item_is_credited_again_witness :
  societies
    (Approval_put (ids_payload [JStr "l1"])
       (SecretaryReview_put (status_payload "pending") "l1"
          (Approval_put (ids_payload [JStr "l1"]) Sample.db).1).1).1 !! "s1"
  = Some (add_total (10 + 10) Sample.phoenix).
Proof.
  apply (reopened_item_is_credited_again "l1" Sample.db
           (Sample.logged 10 "pending" "s1") Sample.phoenix);
    vm_compute; reflexivity.
Defined.

Section Submission.





(** The defaults that an edit takes from the stored row play no part in the
    valuation of a payload that has passed validation. *)
Lemma parse_edit_defaults today db la p :
  validate_logged_activity db p = None ->
  parse_log_activity_fields today db (edit_defaults la p)
  = parse_log_activity_fields today db p.
Proof.
  unfold validate_logged_activity. intros Hv.
  destruct (Py.truthy_str (f_activity_id p)) eqn:Ha;
    destruct (Py.truthy_str (f_activity_type_id p)) eqn:Ht;
    simpl in Hv; try discriminate Hv.
  - unfold parse_log_activity_fields, resolve_activity. simpl. by rewrite Ha.
  - destruct (Py.truthy_date (f_date p)) eqn:Hd; [| discriminate Hv].
    assert (edit_defaults la p = p) as ->; [| done].
    unfold edit_defaults. rewrite Ht, Hd. by destruct p.
Qed.

(** With the foreign key of activities in place, the valuation of a payload
    that has passed validation raises in one case only: the payload names an
    activity that has no date. *)
Lemma parse_validated_raised today db p e :
  validate_logged_activity db p = None ->
  activity_fk db ->
  parse_log_activity_fields today db p = inl (Raised e) ->
  e = TypeError
  /\ exists k a,
       f_activity_id p = Some k /\ activities db !! k = Some a
       /\ act_activity_date a = None.
Proof.
  unfold validate_logged_activity. intros Hv Hfk.
  unfold parse_log_activity_fields, resolve_activity, parse_tail.
  destruct (Py.truthy_str (f_activity_id p)) eqn:Ha;
    destruct (Py.truthy_str (f_activity_type_id p)) eqn:Ht;
    simpl in Hv; try discriminate Hv.
  - destruct (f_activity_id p) as [k |]; [| discriminate Ha]. simpl.
    destruct (activities db !! k) as [a |] eqn:Hact; simpl; [| discriminate].
    destruct (Hfk k a Hact) as [t Htype]. rewrite Htype.
    destruct (act_activity_date a) as [d |] eqn:Hd.
    + destruct (supports_multiple_participants t) eqn:Hs; simpl.
      * destruct (f_no_of_participants p) as [n |]; simpl; [| discriminate].
        destruct (negb (n =? 0) && Py.truthy_str (f_description p)); simpl;
          [| discriminate].
        rewrite Hs. simpl. by destruct (30 <? today - d).
      * rewrite Hs. simpl. by destruct (30 <? today - d).
    + destruct (supports_multiple_participants t
                && negb (Py.truthy_int (f_no_of_participants p)
                         && Py.truthy_str (f_description p)));
        [discriminate |].
      intros [= <-]. split; [done |]. by exists k, a.
  - destruct (f_date p) as [d |]; [| discriminate Hv]. simpl in Hv.
    destruct (today <? d); [discriminate |].
    destruct (f_activity_type_id p) as [k |]; [| discriminate Ht]. simpl in Hv.
    destruct (activity_types db !! k) as [t |] eqn:Htype; [| discriminate].
    simpl. destruct (30 <? today - d); [discriminate |].
    destruct (supports_multiple_participants t) eqn:Hs; simpl; [| discriminate].
    assert (Hin : bool_decide (k ∈ multi_participant_activities db) = true).
    { apply bool_decide_eq_true, elem_of_multi_participant_activities. eauto. }
    rewrite Hin in Hv.
    destruct (f_no_of_participants p) as [n |]; [discriminate |].
    by destruct (Py.truthy_str (f_description p)).
Qed.

End Submission.





(** X8. For a payload that has passed validation, the type and date that an
    edit borrows from the stored row are never used: the edit is valued as
    the payload alone would be, and it stores that value or returns that
    refusal. *)
Theorem edit_is_valued_by_payload_alone env p k db la :
  validate_logged_activity db p = None ->
  logged_activities db !! k = Some la ->
  la_user_id la = user_uuid (current_user env) ->
  la_status la = "in review" ->
  LoggedActivity_put env (Some p) k db =
    match parse_log_activity_fields (today env) db p with
    | inl o => (db, o)
    | inr pr =>
        (with_logged_activities
           (<[k := update_fields (edit_defaults la p) pr la]> (logged_activities db)) db,
         respond "Activity edited successfully" 200)
    end.
Proof.
  intros Hv Hl Hown Hst.
  unfold LoggedActivity_put, schema_load, own_logged_activity.
  apply String.eqb_eq in Hown. rewrite Hv, Hl, Hown, Hst. simpl.
  by rewrite (parse_edit_defaults _ _ la p Hv).
Qed.

Lemma edit_is_valued_by_payload_alone_witness :
  LoggedActivity_put Sample.env (Some Sample.hackathon_log) "l3" Sample.db =
    match parse_log_activity_fields 1030 Sample.db Sample.hackathon_log with
    | inl o => (Sample.db, o)
    | inr pr =>
        (with_logged_activities
           (<["l3" := update_fields
                        (edit_defaults (Sample.logged 7 "in review" "s1")
                           Sample.hackathon_log)
                        pr (Sample.logged 7 "in review" "s1")]>
              (logged_activities Sample.db)) Sample.db,
         respond "Activity edited successfully" 200)
    end.
Proof.
  apply (edit_is_valued_by_payload_alone Sample.env Sample.hackathon_log "l3"
           Sample.db (Sample.logged 7 "in review" "s1"));
    vm_compute; reflexivity.
Defined.

(** X9. A submission for a type named Bootcamp Interviews that carries no
    number of participants raises [KeyError]: the payload has passed
    validation, the user has a society and the valuation has succeeded, so
    the new object has been built and attached to the session, where it is
    left pending; no table is written. *)
Theorem bootcamp_submission_raises env new_uuid p db sid soc pr :
  validate_logged_activity db p = None ->
  current_society env db = Some (sid, soc) ->
  parse_log_activity_fields (today env) db p = inr pr ->
  at_name (pr_activity_type pr).2 = "Bootcamp Interviews" ->
  f_no_of_participants p = None ->
  LoggedActivities_post env new_uuid (Some p) db
  = (with_pending (new_logged_activity env sid p pr :: pending db) db,
     Raised KeyError).
Proof.
  intros Hv Hsoc Hparse Hname Hn.
  unfold LoggedActivities_post, schema_load.
  rewrite Hv, Hsoc, Hparse. simpl in *. rewrite Hname, Hn. reflexivity.
Qed.

Lemma bootcamp_submission_raises_witness :
  LoggedActivities_post Sample.env "l9" (Some Sample.bootcamp_log) Sample.db_bootcamp
  = (with_pending
       (new_logged_activity Sample.env "s1" Sample.bootcamp_log
          (mkParsedResult None ("t3", mkActivityType "Bootcamp Interviews" 20 false)
             1020 20)
        :: pending Sample.db_bootcamp) Sample.db_bootcamp,
     Raised KeyError).
Proof.
  apply (bootcamp_submission_raises Sample.env "l9" Sample.bootcamp_log
           Sample.db_bootcamp "s1" Sample.phoenix);
    vm_compute; reflexivity.
Defined.



(** X10. A logged activity that refers to an activity by its identifier is
    valued even when that activity lies in the future: no test of the date
    against today is made on this branch, unlike on the branch that takes a
    type and a date. *)
Theorem future_activity_is_accepted today db p k a t d :
  f_activity_id p = Some k -> k <> "" ->
  activities db !! k = Some a ->
  activity_types db !! act_activity_type_id a = Some t ->
  supports_multiple_participants t = false ->
  act_activity_date a = Some d ->
  today < d ->
  parse_log_activity_fields today db p
  = inr (mkParsedResult (Some (k, a)) (act_activity_type_id a, t) d (at_value t)).
Proof.
  intros Hid Hk Ha Ht Hs Hd Hfuture.
  unfold parse_log_activity_fields, resolve_activity.
  apply String.eqb_neq in Hk. rewrite Hid. simpl. rewrite Hk. simpl.
  rewrite Ha. simpl. rewrite Ht, Hs, Hd. simpl.
  apply parse_tail_single; [lia | done].
Qed.

Lemma future_activity_is_accepted_witness :
  parse_log_activity_fields 990 Sample.db Sample.hackathon_log
  = inr (mkParsedResult (Some ("a1", Sample.hackathon)) ("t2", Sample.blog) 1000 5).
Proof.
  apply (future_activity_is_accepted 990 Sample.db Sample.hackathon_log "a1"
           Sample.hackathon Sample.blog 1000);
    try (vm_compute; reflexivity); discriminate.
Defined.

Section CamelCase.

Lemma upper_underscore c : Ascii.eqb (Str.upper c) "_" = Ascii.eqb c "_".
Proof. destruct c as [[] [] [] [] [] [] [] []]; reflexivity. Qed.

Lemma lower_underscore c : Ascii.eqb (Str.lower c) "_" = Ascii.eqb c "_".
Proof. destruct c as [[] [] [] [] [] [] [] []]; reflexivity. Qed.

Lemma lower_not_upper c : Str.is_upper (Str.lower c) = false.
Proof. destruct c as [[] [] [] [] [] [] [] []]; reflexivity. Qed.

Lemma length_title_from b s : String.length (Str.title_from b s) = String.length s.
Proof. revert b. induction s as [| c s IH]; intros b; simpl; [done | by rewrite IH]. Qed.

Lemma count_title_from b s :
  Str.count_underscores (Str.title_from b s) = Str.count_underscores s.
Proof.
  revert b. induction s as [| c s IH]; intros b; simpl; [done |].
  rewrite IH. destruct b; by rewrite ?lower_underscore, ?upper_underscore.
Qed.

Lemma length_remove_underscores s :
  (String.length (Str.remove_underscores s) + Str.count_underscores s)%nat
  = String.length s.
Proof.
  induction s as [| c s IH]; simpl; [done |].
  destruct (Ascii.eqb c "_"); simpl; lia.
Qed.

Lemma occurs_remove_underscores s :
  Str.occurs "_" (Str.remove_underscores s) = false.
Proof.
  induction s as [| c s IH]; simpl; [done |].
  destruct (Ascii.eqb c "_") eqn:Hc; simpl; [done |]. by rewrite Hc.
Qed.

Lemma length_camel_source s :
  (String.length (Str.remove_underscores (Str.title s)) + Str.count_underscores s)%nat
  = String.length s.
Proof.
  unfold Str.title.
  rewrite <- (count_title_from false s), length_remove_underscores.
  apply length_title_from.
Qed.

End CamelCase.

(** X11. [camel_case] raises [IndexError] exactly on the names that
    consist of underscores only, the empty name among them. *)
Theorem camel_case_raises_iff snake_str :
  camel_case snake_str = None
  <-> Str.count_underscores snake_str = String.length snake_str.
Proof.
  unfold camel_case. pose proof (length_camel_source snake_str) as Hlen.
  destruct (Str.remove_underscores (Str.title snake_str)) as [| c rest];
    simpl in Hlen; split; try done; intros H; lia.
Qed.

(** X12. When [camel_case] returns, the result has no underscore, is as
    long as the name without its underscores, and does not start with an
    upper-case letter. *)
Theorem camel_case_result snake_str r :
  camel_case snake_str = Some r ->
  Str.occurs "_" r = false
  /\ (String.length r + Str.count_underscores snake_str)%nat = String.length snake_str
  /\ exists c rest, r = String c rest /\ Str.is_upper c = false.
Proof.
  unfold camel_case. pose proof (length_camel_source snake_str) as Hlen.
  pose proof (occurs_remove_underscores (Str.title snake_str)) as Hocc.
  destruct (Str.remove_underscores (Str.title snake_str)) as [| c rest];
    [discriminate |].
  intros [= <-]. simpl in *. apply orb_false_iff in Hocc as [Hc Hrest].
  split; [by rewrite lower_underscore, Hc |]. split; [done |].
  exists (Str.lower c), rest. split; [done | apply lower_not_upper].
Qed.

Lemma camel_case_result_witness :
  Str.occurs "_" "activityTypeId" = false
  /\ (String.length "activityTypeId" + Str.count_underscores "activity_type_id")%nat
     = String.length "activity_type_id"
  /\ exists c rest, "activityTypeId" = String c rest /\ Str.is_upper c = false.
Proof.
  apply (camel_case_result "activity_type_id" "activityTypeId"). reflexivity.
Defined.

Section PointsEarned.

Context (user_id : string).

#[local] Abbreviation counted :=
  (fun kv : string * LoggedActivity =>
     la_user_id (snd kv) = user_id /\ la_status (snd kv) = "approved").

Lemma sum_values_empty : sum_values ∅ = 0.
Proof. unfold sum_values. by rewrite map_fold_empty. Qed.

Lemma sum_values_insert m k x :
  m !! k = None -> sum_values (<[k := x]> m) = la_value x + sum_values m.
Proof.
  intros H. unfold sum_values. rewrite map_fold_insert_L; [done | | done].
  intros. lia.
Qed.

Lemma sum_values_delete m k x :
  m !! k = Some x -> sum_values m = la_value x + sum_values (delete k m).
Proof.
  intros H. unfold sum_values. rewrite (map_fold_delete_L _ _ k x m); [done | | done].
  intros. lia.
Qed.

Lemma earns_counted la :
  earns user_id la = if decide (counted ("", la)) then la_value la else 0.
Proof.
  unfold earns. simpl.
  destruct (String.eqb_spec (la_user_id la) user_id);
    destruct (String.eqb_spec (la_status la) "approved");
    simpl; case_decide; try done; tauto.
Qed.

Lemma earned_delete (m : gmap string LoggedActivity) k x :
  m !! k = Some x ->
  sum_values (filter counted m)
  = earns user_id x + sum_values (filter counted (delete k m)).
Proof.
  intros H. rewrite earns_counted, map_filter_delete. case_decide as Hc.
  - apply sum_values_delete. by apply map_lookup_filter_Some.
  - rewrite delete_id; [lia |]. apply map_lookup_filter_None. right.
    intros x' Hx'. rewrite H in Hx'. by injection Hx' as <-.
Qed.

Lemma earned_insert (m : gmap string LoggedActivity) k y :
  sum_values (filter counted (<[k := y]> m))
  = earns user_id y + sum_values (filter counted (delete k m)).
Proof.
  rewrite earns_counted, map_filter_insert. simpl. case_decide as Hc.
  - rewrite <- insert_delete_eq, sum_values_insert; [| apply lookup_delete_eq].
    by rewrite map_filter_delete.
  - lia.
Qed.

Lemma earned_fresh (m : gmap string LoggedActivity) k y :
  m !! k = None ->
  sum_values (filter counted (<[k := y]> m))
  = earns user_id y + sum_values (filter counted m).
Proof. intros H. by rewrite earned_insert, (delete_id _ _ H). Qed.

Lemma earned_replace (m : gmap string LoggedActivity) k x y :
  m !! k = Some x ->
  sum_values (filter counted (<[k := y]> m))
  = earns user_id y - earns user_id x + sum_values (filter counted m).
Proof. intros H. rewrite earned_insert, (earned_delete m k x H). lia. Qed.

Lemma pointsEarned_sum db :
  pointsEarned user_id db = sum_values (filter counted (logged_activities db)).
Proof.
  unfold pointsEarned, points_earned_scalar, approved_of. case_decide as He.
  - by rewrite He, sum_values_empty.
  - destruct (Z.eqb_spec (sum_values (filter counted (logged_activities db))) 0);
      congruence.
Qed.

Lemma earns_not_approved la :
  la_status la <> "approved" -> earns user_id la = 0.
Proof.
  intros H. unfold earns. apply String.eqb_neq in H. rewrite H.
  by rewrite andb_false_r.
Qed.




End PointsEarned.



(** The same request, run: the two pending items, one of them named by a
    list of one key, bring the fellow from 5 to 22 points earned. *)
Example Approval_put_points_earned_sample :
  pointsEarned "u2" Sample.db = 5
  /\ pointsEarned "u2" (Approval_put (ids_payload Sample.ids_nested) Sample.db).1 = 22.
Proof. vm_compute. split; reflexivity. Qed.

(** X14. Submitting, editing, deleting, rejecting and handling a
    redemption never change the points earned by any user: they touch only
    rows that are not approved. *)
Theorem step_keeps_points_earned op db user_id :
  is_review_step op = false ->
  pointsEarned user_id (step op db).1 = pointsEarned user_id db.
Proof.
  intros Hop. rewrite !pointsEarned_sum.
  destruct op as [env u p | env p k | env k | p k | p | k | p k];
    try discriminate Hop; simpl.
  - unfold LoggedActivities_post, save_new. repeat case_match; simpl; try done.
    all: rewrite earned_fresh by done; by rewrite earns_not_approved.
  - unfold LoggedActivity_put, own_logged_activity.
    repeat case_match; simpl; try done; simplify_eq.
    all: match goal with H : negb (String.eqb (la_status ?la) _) = false |- _ =>
           apply negb_false_iff, String.eqb_eq in H;
           erewrite (earned_replace _ _ _ la) by eassumption;
           rewrite !earns_not_approved; [lia | by rewrite H | simpl; by rewrite H]
         end.
  - unfold LoggedActivity_delete, own_logged_activity.
    repeat case_match; simpl; try done; simplify_eq.
    match goal with H : negb (String.eqb (la_status ?la) _) = false,
                    Hl : logged_activities db !! _ = Some ?la |- _ =>
      apply negb_false_iff, String.eqb_eq in H;
      rewrite (earned_delete _ _ _ la Hl), earns_not_approved; [lia | by rewrite H]
    end.
  - unfold Rejection_put. repeat case_match; simpl; try done.
    match goal with H : String.eqb (la_status ?la) _ = true,
                    Hl : logged_activities db !! _ = Some ?la |- _ =>
      apply String.eqb_eq in H;
      rewrite (earned_replace _ _ _ la _ Hl), !earns_not_approved;
        [lia | by rewrite H | done]
    end.
  - unfold Numeration_put. repeat case_match; simpl; done.
Qed.

Lemma step_keeps_points_earned_witness :
  pointsEarned "u2"
    (step (OpEdit Sample.env (Some Sample.interview_edit) "l3") Sample.db).1
  = pointsEarned "u2" Sample.db.
Proof.
  apply (step_keeps_points_earned
           (OpEdit Sample.env (Some Sample.interview_edit) "l3") Sample.db "u2").
  reflexivity.
Defined.

(** X15. Secretary review of an approved item takes its value away from
    the points earned by its owner and leaves every society as it is: from
    then on the society's total counts points that no user has earned. *)
Theorem secretary_review_takes_points_back st k db la :
  logged_activities db !! k = Some la ->
  la_status la = "approved" ->
  st = "pending" \/ st = "rejected" ->
  let db' := (SecretaryReview_put (status_payload st) k db).1 in
  pointsEarned (la_user_id la) db' = pointsEarned (la_user_id la) db - la_value la
  /\ societies db' = societies db.
Proof.
  intros Hl Hst Hnew. simpl.
  assert (Hrun : SecretaryReview_put (status_payload st) k db
                 = (with_logged_activities
                      (<[k := set_la_status st la]> (logged_activities db)) db,
                    respond "successfully changed status" 200)).
  { unfold SecretaryReview_put. simpl. rewrite Hl. by destruct Hnew as [-> | ->]. }
  rewrite Hrun. simpl. split; [| done].
  rewrite !pointsEarned_sum. simpl. rewrite (earned_replace _ _ _ la _ Hl).
  rewrite earns_not_approved by (simpl; destruct Hnew as [-> | ->]; discriminate).
  unfold earns. rewrite Hst, String.eqb_refl. simpl. lia.
Qed.

Lemma secretary_review_takes_points_back_witness :
  pointsEarned "u2" (SecretaryReview_put (status_payload "pending") "l2" Sample.db).1
  = pointsEarned "u2" Sample.db - 5
  /\ societies (SecretaryReview_put (status_payload "pending") "l2" Sample.db).1
     = societies Sample.db.
Proof.
  apply (secretary_review_takes_points_back "pending" "l2" Sample.db
           (Sample.logged 5 "approved" "s1")).
  - vm_compute. reflexivity.
  - reflexivity.
  - by left.
Defined.

(** X16. [UserLoggedActivitiesAPI.get] answers 404 for an unknown user;
    for a known user it reports the sum of the values of the user's approved
    items, and a user without items gets that said, with zero items and
    zero points. *)
Theorem UserLoggedActivities_get_spec user_id db :
  (users db !! user_id = None ->
   UserLoggedActivities_get user_id db
   = inl (response_builder (Msg "User not found") 404))
  /\ (is_Some (users db !! user_id) ->
      exists ua,
        UserLoggedActivities_get user_id db = inr ua
        /\ ua_pointsEarned ua = sum_values (approved_of user_id db)
        /\ (ua_message ua = "There are no logged activities for that user."
            <-> ua_activitiesLogged ua = 0%nat)
        /\ (ua_activitiesLogged ua = 0%nat -> ua_pointsEarned ua = 0)).
Proof.
  unfold UserLoggedActivities_get. split.
  - by intros ->.
  - intros [user ->]. eexists. split; [reflexivity |]. simpl.
    split; [apply pointsEarned_sum |]. split.
    + case_decide as He.
      * split; [| done]. intros _. by rewrite He, map_size_empty.
      * split; [discriminate |]. intros Hsize. by apply map_size_empty_inv in Hsize.
    + intros Hsize. apply map_size_empty_inv in Hsize.
      rewrite pointsEarned_sum.
      assert (approved_of user_id db = ∅) as Hnone.
      { apply map_empty. intros k. apply map_lookup_filter_None. right.
        intros la Hl [Huser _].
        assert (Hin : user_logged_activities user_id db !! k = Some la)
          by (by apply map_lookup_filter_Some).
        by rewrite Hsize, lookup_empty in Hin. }
      unfold approved_of in Hnone. by rewrite Hnone, sum_values_empty.
Qed.

Lemma UserLoggedActivities_get_spec_witness :
  UserLoggedActivities_get "nobody" Sample.db
  = inl (response_builder (Msg "User not found") 404)
  /\ exists ua,
       UserLoggedActivities_get "u1" Sample.db = inr ua
       /\ ua_pointsEarned ua = sum_values (approved_of "u1" Sample.db)
       /\ (ua_message ua = "There are no logged activities for that user."
           <-> ua_activitiesLogged ua = 0%nat)
       /\ (ua_activitiesLogged ua = 0%nat -> ua_pointsEarned ua = 0).
Proof.
  split.
  - apply (proj1 (UserLoggedActivities_get_spec "nobody" Sample.db)).
    vm_compute. reflexivity.
  - apply (proj2 (UserLoggedActivities_get_spec "u1" Sample.db)).
    vm_compute. by eexists.
Defined.

(** X17. Deleting a redemption request gives nothing back: after an
    approval, the delete is answered 200, the request is gone, the society
    keeps the used points the approval added, and a later approval of the
    same identifier is answered 404. *)
Theorem Redemption_delete_keeps_credit o k db rr user sid soc :
  k <> "" ->
  Py.assoc "status" o = Some (JStr "approved") ->
  redemptions db !! k = Some rr ->
  users db !! rr_user_id rr = Some user ->
  user_society_id user = Some sid ->
  societies db !! sid = Some soc ->
  let db1 := (Numeration_put (JObj o) k db).1 in
  let db2 := (Redemption_delete k db1).1 in
  (Redemption_delete k db1).2 = respond "RedemptionRequest deleted successfully." 200
  /\ redemptions db2 !! k = None
  /\ societies db2 !! sid = Some (set_used_points soc rr)
  /\ Numeration_put (JObj o) k db2 = (db2, respond "Resource does not exist." 404).
Proof.
  intros Hk Ho Hr Hu Hsid Hs. simpl.
  rewrite (Numeration_put_approve o k db rr user sid soc Hk Ho Hr Hu Hsid Hs). simpl.
  unfold Redemption_delete. apply String.eqb_neq in Hk as Hk'. rewrite Hk'. simpl.
  rewrite lookup_insert_eq. simpl.
  split; [done |]. split; [apply lookup_delete_eq |].
  split; [apply lookup_insert_eq |].
  unfold Numeration_put. rewrite Hk'.
  assert (Py.truthy (JObj o) = true) as -> by (by destruct o).
  simpl. rewrite Ho. simpl. by rewrite lookup_delete_eq.
Qed.

Lemma Redemption_delete_keeps_credit_witness :
  let db1 := (Numeration_put Sample.approve "r1" Sample.db).1 in
  let db2 := (Redemption_delete "r1" db1).1 in
  (Redemption_delete "r1" db1).2 = respond "RedemptionRequest deleted successfully." 200
  /\ redemptions db2 !! "r1" = None
  /\ societies db2 !! "s1"
     = Some (set_used_points Sample.phoenix
               (mkRedemptionRequest "party" "u1" "s1" 40 (JStr "pending")))
  /\ Numeration_put Sample.approve "r1" db2
     = (db2, respond "Resource does not exist." 404).
Proof.
  apply (Redemption_delete_keeps_credit _ "r1" Sample.db
           (mkRedemptionRequest "party" "u1" "s1" 40 (JStr "pending"))
           Sample.president "s1" Sample.phoenix);
    try (vm_compute; reflexivity); discriminate.
Defined.

(** X18. A redemption is approved without any look at the balance: when
    the request is worth more than the society has left, the approval is
    still answered 200 and the society's remaining points become
    negative. *)
Theorem redemption_is_approved_beyond_balance o k db rr user sid soc :
  k <> "" ->
  Py.assoc "status" o = Some (JStr "approved") ->
  redemptions db !! k = Some rr ->
  users db !! rr_user_id rr = Some user ->
  user_society_id user = Some sid ->
  societies db !! sid = Some soc ->
  remaining_points soc < rr_value rr ->
  exists soc',
    (Numeration_put (JObj o) k db).2
    = Returned (response_builder (MsgStatusChanged (JStr "approved")) 200)
    /\ societies (Numeration_put (JObj o) k db).1 !! sid = Some soc'
    /\ remaining_points soc' = remaining_points soc - rr_value rr
    /\ remaining_points soc' < 0.
Proof.
  intros Hk Ho Hr Hu Hsid Hs Hlt.
  rewrite (Numeration_put_approve o k db rr user sid soc Hk Ho Hr Hu Hsid Hs). simpl.
  eexists. split; [done |]. split; [apply lookup_insert_eq |].
  unfold remaining_points, total_points, used_points in *. simpl. lia.
Qed.

Lemma redemption_is_approved_beyond_balance_witness :
  exists soc',
    (Numeration_put Sample.approve "r1"
       (with_societies (<["s1" := mkSociety "Phoenix" 50 30]> (societies Sample.db))
          Sample.db)).2
    = Returned (response_builder (MsgStatusChanged (JStr "approved")) 200)
    /\ societies
         (Numeration_put Sample.approve "r1"
            (with_societies (<["s1" := mkSociety "Phoenix" 50 30]> (societies Sample.db))
               Sample.db)).1 !! "s1"
       = Some soc'
    /\ remaining_points soc' = remaining_points (mkSociety "Phoenix" 50 30) - 40
    /\ remaining_points soc' < 0.
Proof.
  apply (redemption_is_approved_beyond_balance _ "r1" _
           (mkRedemptionRequest "party" "u1" "s1" 40 (JStr "pending"))
           Sample.president "s1" (mkSociety "Phoenix" 50 30));
    try (vm_compute; reflexivity); discriminate.
Defined.

(** X19. The two sides of the ledger are written by one request each:
    whatever the request, every society is still there under its name; its
    total points can change only through an approval of logged activities
    and its used points only through the redemption handler. *)
Theorem step_ledger_sides op db s soc :
  societies db !! s = Some soc ->
  exists soc',
    societies (step op db).1 !! s = Some soc'
    /\ soc_name soc' = soc_name soc
    /\ ((forall payload, op <> OpApprove payload) ->
        total_points soc' = total_points soc)
    /\ ((forall payload k, op <> OpNumerate payload k) ->
        used_points soc' = used_points soc).
Proof.
  intros Hs.
  assert (Hsame : forall db', societies db' = societies db ->
            exists soc',
              societies db' !! s = Some soc'
              /\ soc_name soc' = soc_name soc
              /\ ((forall payload, op <> OpApprove payload) ->
                  total_points soc' = total_points soc)
              /\ ((forall payload k, op <> OpNumerate payload k) ->
                  used_points soc' = used_points soc)).
  { intros db' ->. by exists soc. }
  destruct op as [env u p | env p k | env k | p k | p | k | p k]; simpl.
  - apply Hsame, LoggedActivities_post_societies.
  - apply Hsame, LoggedActivity_put_societies.
  - apply Hsame, LoggedActivity_delete_societies.
  - apply Hsame, SecretaryReview_put_societies.
  - destruct (Approval_put_societies p db s soc Hs) as (u & _ & Hl).
    eexists. split; [exact Hl |]. split; [done |]. split; [| done].
    intros H. by destruct (H p).
  - apply Hsame, Rejection_put_societies.
  - destruct (Numeration_put_societies p k db s soc Hs) as [Hl | (rr & _ & _ & Hl)].
    + by exists soc.
    + eexists. split; [exact Hl |]. split; [done |]. split; [done |].
      intros H. by destruct (H p k).
Qed.

Lemma step_ledger_sides_witness :
  exists soc',
    societies (step (OpApprove Sample.bulk) Sample.db).1 !! "s1" = Some soc'
    /\ soc_name soc' = soc_name Sample.phoenix
    /\ ((forall payload, OpApprove Sample.bulk <> OpApprove payload) ->
        total_points soc' = total_points Sample.phoenix)
    /\ ((forall payload k, OpApprove Sample.bulk <> OpNumerate payload k) ->
        used_points soc' = used_points Sample.phoenix).
Proof.
  apply (step_ledger_sides (OpApprove Sample.bulk) Sample.db "s1" Sample.phoenix).
  vm_compute. reflexivity.
Defined.

(** X20. Python visits the set of collected items in an order of its
    own; with every society in place, the approving loop leaves the same
    session whatever the order. *)
Theorem approval_order_is_irrelevant ids db u u' :
  society_fk db ->
  collect_pending db ids [] = inr u ->
  u' ≡ₚ u ->
  approve_all u' db = approve_all u db.
Proof.
  intros Hfk Hc Hp. destruct (collect_pending_init db ids u Hc) as (Hnd & Hft & _).
  apply approve_all_Permutation; [done | done |].
  intros [k la] He. apply Hft in He. exact (Hfk k la He).
Qed.

Lemma approval_order_is_irrelevant_witness :
  approve_all
    (reverse [("l1", Sample.logged 10 "pending" "s1");
              ("l4", Sample.logged 7 "pending" "s2")]) Sample.db
  = approve_all
      [("l1", Sample.logged 10 "pending" "s1");
       ("l4", Sample.logged 7 "pending" "s2")] Sample.db.
Proof.
  apply (approval_order_is_irrelevant Sample.ids Sample.db).
  - apply (bool_decide_unpack _). vm_compute. exact I.
  - vm_compute. reflexivity.
  - apply reverse_Permutation.
Defined.

(** X21. A request for more information sends its e-mail exactly when it
    is answered 200.  When the owner of the item belongs to no society, a
    request with a comment raises [AttributeError] and sends nothing. *)
Theorem Info_put_mail payload k db :
  (is_Some (Info_put payload k db).2
   <-> (Info_put payload k db).1
       = respond "Extra information has been successfully requested" 200)
  /\ (forall la user comment,
        k <> "" ->
        logged_activities db !! k = Some la ->
        users db !! la_user_id la = Some user ->
        user_society_id user = None ->
        Py.get "comment" payload = inr comment ->
        Py.truthy comment = true ->
        Info_put payload k db = (Raised AttributeError, None)).
Proof.
  split.
  - unfold Info_put, respond.
    repeat case_match; simpl; split; intros Hmail; try done;
      try (by destruct Hmail); by eexists.
  - intros la user comment Hk Hl Hu Hsoc Hget Htruthy.
    unfold Info_put. apply String.eqb_neq in Hk.
    assert (Py.truthy payload = true) as ->.
    { destruct payload as [| | | | | o]; try discriminate.
      destruct o; [| done]. simpl in Hget. injection Hget as <-. discriminate. }
    simpl. by rewrite Hk, Hl, Hget, Htruthy, Hu, Hsoc.
Qed.

Lemma Info_put_mail_witness :
  Info_put (JObj [("comment", JStr "which talk?")]) "l1"
    (with_logged_activities
       (<["l1" := mkLoggedActivity None None None 10 "pending" 1000 false None
                    "t2" "u3" "s1" None]> (logged_activities Sample.db))
       Sample.db)
  = (Raised AttributeError, None).
Proof.
  apply (proj2 (Info_put_mail _ "l1" _)
           (mkLoggedActivity None None None 10 "pending" 1000 false None
              "t2" "u3" "s1" None)
           Sample.outsider (JStr "which talk?"));
    try (vm_compute; reflexivity); discriminate.
Defined.
